(** * Swagen TypeScript language helpers: a shallow embedding of [src/index.ts]

    The module under study renders fragments of TypeScript text (a file
    header, documentation comments, type names and method signatures) from
    an already parsed API description.  Every exported function of
    [index.ts] is translated below as a Rocq function of the same name.

    Conventions of the embedding:
    - a JavaScript value that is either a string or [undefined] is an
      [option string]; the conditions [if (x)], [x ? a : b], [x || d] and
      [!!x] on such a value are the test [truthy], which is false on
      [undefined] and on the empty string;
    - [throw new Error(msg)] is the constructor [Throw msg] of [result],
      and sequencing of calls that may throw is the bind of that type;
    - the two host functions used by the code, [JSON.stringify] and the
      numeric conversion [+key], are not code of the module: they are
      section variables, so every statement holds for any behaviour of
      the host. *)

From Stdlib Require Import String Ascii List Bool NArith ZArith QArith Qround Lia.
From Stdlib Require Import DecimalString Sorted.
Import ListNotations.

Local Open Scope string_scope.
Local Open Scope list_scope.

Set Implicit Arguments.

(** ** JavaScript values *)

Module JS.

(** Outcome of a call: a normal return or a thrown [Error] with its
    message. *)
Inductive result (A : Type) : Type :=
| Ok (value : A)
| Throw (message : string).

Arguments Ok {A} value.
Arguments Throw {A} message.

Definition bind {A B : Type} (r : result A) (k : A -> result B) : result B :=
  match r with
  | Ok a => k a
  | Throw m => Throw m
  end.

(** Truthiness of a string: only the empty string is falsy. *)
Definition nonEmpty (s : string) : bool :=
  match s with
  | EmptyString => false
  | String _ _ => true
  end.

(** Truthiness of a value that is a string or [undefined]. *)
Definition truthy (v : option string) : bool :=
  match v with
  | Some s => nonEmpty s
  | None => false
  end.

(** [present v] is the string held by a truthy [v]. *)
Definition present (v : option string) : option string :=
  match v with
  | Some s => if nonEmpty s then Some s else None
  | None => None
  end.

(** [v || d]. *)
Definition orElse (v : option string) (d : string) : string :=
  match present v with
  | Some s => s
  | None => d
  end.

(** Interpolation [${v}] in a template literal. *)
Definition template (v : option string) : string :=
  match v with
  | Some s => s
  | None => "undefined"
  end.

(** [v === s] as used by a [case s:] label. *)
Definition strictEq (v : option string) (s : string) : bool :=
  match v with
  | Some x => String.eqb x s
  | None => false
  end.

(** [Array.prototype.push] and [unshift], as functions on the array's
    contents. *)
Definition push {A : Type} (a : list A) (xs : list A) : list A := a ++ xs.
Definition unshift {A : Type} (a : list A) (x : A) : list A := x :: a.

(** [a || []] for an array that may be [undefined]: an array, even an
    empty one, is truthy. *)
Definition orEmpty {A : Type} (a : option (list A)) : list A :=
  match a with
  | Some xs => xs
  | None => []
  end.

(** [Array.prototype.reduce] with an initial value; an exception of the
    callback ends the reduction. *)
Fixpoint reduce {A B : Type} (callback : B -> A -> result B)
         (array : list A) (accumulate : B) : result B :=
  match array with
  | [] => Ok accumulate
  | x :: rest =>
      match callback accumulate x with
      | Ok accumulate' => reduce callback rest accumulate'
      | Throw m => Throw m
      end
  end.

(** A JavaScript number, as far as ordering against a rational constant
    is concerned: every finite double is a rational. *)
Inductive number : Type :=
| NaN
| Infinity (positive : bool)
| Finite (q : Q).

(** [x >= n] and [x < n]; any comparison with [NaN] is false. *)
Definition geq (x : number) (n : Q) : bool :=
  match x with
  | NaN => false
  | Infinity positive => positive
  | Finite q => Qle_bool n q
  end.

Definition lt (x : number) (n : Q) : bool :=
  match x with
  | NaN => false
  | Infinity positive => negb positive
  | Finite q => negb (Qle_bool n q)
  end.

End JS.

Import JS.

Notation "x <- e ;; k" := (bind e (fun x => k))
  (at level 61, e at next level, right associativity).

(** String concatenation, the [+] of strings and the juxtaposition inside
    template literals. *)
Infix "+++" := String.append (right associativity, at level 60).

(** ** Interfaces of [index.ts] *)

Module Profile.
Record t : Type := mk {
  generator : string;
  mode : option string
}.
End Profile.

Module Metadata.
Record t : Type := mk {
  title : option string;
  description : option string;
  baseUrl : option string
}.
End Metadata.

Module ApiDefinition.
Record t : Type := mk {
  metadata : option Metadata.t
}.
End ApiDefinition.

Module Property.
Record t : Type := mk {
  primitive : option string;
  subType : option string;
  complex : option string;
  enum : option string;
  isArray : bool
}.

Definition withIsArray (b : bool) (p : t) : t :=
  mk (primitive p) (subType p) (complex p) (enum p) b.
End Property.

Module OperationParameter.
Record t : Type := mk {
  name : string;
  description : option string;
  dataType : Property.t
}.
End OperationParameter.

Module Response.
Record t : Type := mk {
  dataType : option Property.t
}.
End Response.

(** The [responses] object.  [own] lists its own enumerable properties in
    the order of their creation, each key once; [inherited] lists the
    enumerable properties of its prototype chain.  The order in which
    [for (const statusKey in responses)] visits the keys is computed from
    them by [forIn]: the own keys that are array indices in ascending
    numeric order, then the other own keys in the order of their creation,
    then the inherited keys that no own key shadows. *)
Module Responses.
Record t : Type := mk {
  own : list (string * Response.t);
  inherited : list (string * Response.t)
}.

(** A key is an array index when it is the decimal writing of an integer
    from 0 to 2^32 - 2, that is when writing the number it reads as gives
    the key back: [200] is one, [0200], [2e2] and [default] are not. *)
Definition arrayIndex (key : string) : option N :=
  match NilEmpty.uint_of_string key with
  | Some digits =>
      let index := N.of_uint digits in
      if String.eqb (NilEmpty.string_of_uint (N.to_uint index)) key
         && (index <? 4294967295)%N
      then Some index
      else None
  | None => None
  end.

Fixpoint insertIndex (entry : N * string) (sorted : list (N * string))
  : list (N * string) :=
  match sorted with
  | [] => [entry]
  | first :: rest =>
      if (fst entry <? fst first)%N
      then entry :: sorted
      else first :: insertIndex entry rest
  end.

(** The keys that are array indices, with their index, in ascending
    order. *)
Fixpoint indexKeys (keys : list string) : list (N * string) :=
  match keys with
  | [] => []
  | key :: rest =>
      match arrayIndex key with
      | Some index => insertIndex (index, key) (indexKeys rest)
      | None => indexKeys rest
      end
  end.

(** The keys that are not array indices, in the order given. *)
Definition nameKeys (keys : list string) : list string :=
  filter (fun key => match arrayIndex key with
                     | Some _ => false
                     | None => true
                     end) keys.

(** The own keys in the order of enumeration. *)
Definition ownPropertyKeys (entries : list (string * Response.t)) : list string :=
  map snd (indexKeys (map fst entries)) ++ nameKeys (map fst entries).

Definition hasOwnProperty (responses : t) (k : string) : bool :=
  existsb (String.eqb k) (map fst (own responses)).

Definition forIn (responses : t) : list string :=
  ownPropertyKeys (own responses)
  ++ filter (fun k => negb (hasOwnProperty responses k))
            (map fst (inherited responses)).

Fixpoint lookup (entries : list (string * Response.t)) (k : string) : Response.t :=
  match entries with
  | [] => Response.mk None
  | (k', r) :: rest => if String.eqb k' k then r else lookup rest k
  end.

(** [responses[k]]: an own property shadows an inherited one. *)
Definition get (responses : t) (k : string) : Response.t :=
  lookup (own responses ++ inherited responses) k.

(** The object literal [{k1: r1, ..., kn: rn}]: its properties are created
    in the order written and it inherits no enumerable property. *)
Definition literal (entries : list (string * Response.t)) : t :=
  mk entries [].
End Responses.

Module Operation.
Record t : Type := mk {
  description : option string;
  description2 : option string;
  parameters : option (list OperationParameter.t);
  responses : option Responses.t
}.
End Operation.

Module ReturnTypeOptions.
Record t : Type := mk {
  modelsNs : option string;
  voidType : option string
}.
End ReturnTypeOptions.

(** [MethodSignatureOptions extends ReturnTypeOptions]: the coercion lets
    a value of the extended interface be passed where the base one is
    expected, as [getMethodSignature] does when it calls [getReturnType]. *)
Module MethodSignatureOptions.
Record t : Type := mk {
  base : ReturnTypeOptions.t;
  returnTypeTransformer : option (string -> string)
}.
End MethodSignatureOptions.

Coercion MethodSignatureOptions.base :
  MethodSignatureOptions.t >-> ReturnTypeOptions.t.

(** ** The functions of [index.ts] *)

Definition buildHeader (profile : Profile.t) (definition : option ApiDefinition.t)
  : list string :=
  let header :=
    [ "//------------------------------";
      "// <auto-generated>";
      "//     Generated using the Swagen tool";
      "//     Generator: " +++ Profile.generator profile ] in
  let header :=
    if truthy (Profile.mode profile)
    then push header ["//     Mode: " +++ template (Profile.mode profile)]
    else header in
  let header :=
    push header
      [ "// </auto-generated>";
        "//------------------------------" ] in
  match definition with
  | None => header
  | Some definition =>
      match ApiDefinition.metadata definition with
      | None => header
      | Some metadata =>
          let header :=
            if truthy (Metadata.title metadata)
            then push header ["// " +++ template (Metadata.title metadata)]
            else header in
          let header :=
            if truthy (Metadata.description metadata)
            then push header ["// " +++ template (Metadata.description metadata)]
            else header in
          let header :=
            if truthy (Metadata.baseUrl metadata)
            then push header ["// Base URL: " +++ template (Metadata.baseUrl metadata)]
            else header in
          header
      end
  end.

Definition prefixNamespace (name : string) (ns : option string) : string :=
  if truthy ns then template ns +++ "." +++ name else name.

Section Host.

(** [JSON.stringify(property, null, 4)]. *)
Variable JSON_stringify : Property.t -> string.

(** The unary plus [+statusKey]. *)
Variable ToNumber : string -> number.

Definition getPrimitiveTypeName (property : Property.t) : result string :=
  let primitive := Property.primitive property in
  if strictEq primitive "integer" || strictEq primitive "number" then
    Ok "number"
  else if strictEq primitive "string" then
    let subType := Property.subType property in
    if strictEq subType "date-time" then Ok "Date"
    else if strictEq subType "uuid" then Ok "string"
    else if strictEq subType "byte" then Ok "number"
    else Ok "string"
  else if strictEq primitive "boolean" then
    Ok "boolean"
  else if strictEq primitive "file" || strictEq primitive "object" then
    Ok "any"
  else
    Throw ("Cannot translate primitive type " +++ JSON_stringify property).

Definition getDataType (property : Property.t) (ns : option string)
  : result string :=
  typeName <-
    (if truthy (Property.primitive property) then
       getPrimitiveTypeName property
     else if truthy (Property.complex property) then
       Ok (prefixNamespace (template (Property.complex property)) ns)
     else if truthy (Property.enum property) then
       Ok (prefixNamespace (template (Property.enum property)) ns)
     else
       Throw ("Cannot understand type of property in definition: "
              +++ JSON_stringify property)) ;;
  Ok (if Property.isArray property then typeName +++ "[]" else typeName).

(** The body of the loop [for (const describedParam of describedParams)]
    of [buildOperationDocComments], acting on the array [comments]. *)
Fixpoint documentParams (comments : list string)
         (describedParams : list OperationParameter.t) : result (list string) :=
  match describedParams with
  | [] => Ok comments
  | describedParam :: rest =>
      dataType <- getDataType (OperationParameter.dataType describedParam) None ;;
      documentParams
        (push comments
           [ " * @param {" +++ dataType +++ "} "
             +++ OperationParameter.name describedParam +++ " - "
             +++ template (OperationParameter.description describedParam) ])
        rest
  end.

Definition buildOperationDocComments (operation : Operation.t)
  : result (list string) :=
  let comments := [] in
  let comments :=
    if truthy (Operation.description operation)
    then push comments [" * " +++ template (Operation.description operation)]
    else comments in
  let comments :=
    if truthy (Operation.description2 operation)
    then push comments [" * " +++ template (Operation.description2 operation)]
    else comments in
  let describedParams :=
    filter (fun p => truthy (OperationParameter.description p))
           (orEmpty (Operation.parameters operation)) in
  comments <- documentParams comments describedParams ;;
  Ok (if (0 <? length comments)%nat
      then push (unshift comments "/**") [" */"]
      else comments).

(** The loop [for (const statusKey in operation.responses)] of
    [getReturnType], over the keys still to visit; the last case is the
    statement after the loop. *)
Fixpoint scanResponses (responses : Responses.t) (options : ReturnTypeOptions.t)
         (keys : list string) : result string :=
  match keys with
  | [] => Ok (orElse (ReturnTypeOptions.voidType options) "void")
  | statusKey :: rest =>
      if Responses.hasOwnProperty responses statusKey then
        let statusCode := ToNumber statusKey in
        if geq statusCode 200 && lt statusCode 300 then
          match Response.dataType (Responses.get responses statusKey) with
          | Some dataType =>
              getDataType dataType (ReturnTypeOptions.modelsNs options)
          | None => scanResponses responses options rest
          end
        else scanResponses responses options rest
      else scanResponses responses options rest
  end.

Definition getReturnType (operation : Operation.t) (options : ReturnTypeOptions.t)
  : result string :=
  match Operation.responses operation with
  | None => Ok (orElse (ReturnTypeOptions.voidType options) "void")
  | Some responses =>
      scanResponses responses options (Responses.forIn responses)
  end.

(** The arrow function that [getMethodSignature] passes to [reduce]. *)
Definition appendParameter (options : MethodSignatureOptions.t)
           (accumulate : string) (parameter : OperationParameter.t)
  : result string :=
  let accumulate :=
    if nonEmpty accumulate then accumulate +++ ", " else accumulate in
  dataType <- getDataType (OperationParameter.dataType parameter)
                          (ReturnTypeOptions.modelsNs options) ;;
  Ok (accumulate
      +++ (OperationParameter.name parameter +++ ": " +++ dataType)).

(** The constant [parameters] of [getMethodSignature]. *)
Definition signatureParameters (operation : Operation.t)
           (options : MethodSignatureOptions.t) : result string :=
  reduce (appendParameter options)
         (orEmpty (Operation.parameters operation)) "".

Definition getMethodSignature (operationName : string) (operation : Operation.t)
           (options : MethodSignatureOptions.t) : result string :=
  parameters <- signatureParameters operation options ;;
  returnType <- getReturnType operation options ;;
  let returnType :=
    match MethodSignatureOptions.returnTypeTransformer options with
    | Some transformer => transformer returnType
    | None => returnType
    end in
  Ok (operationName +++ "(" +++ parameters +++ "): " +++ returnType).

End Host.

(** ** Instances of the host functions used to evaluate examples *)

Module SampleHost.

(** A serializer standing for [JSON.stringify]: the examples below do
    not depend on the text it yields. *)
Definition stringify (p : Property.t) : string :=
  "{" +++ template (Property.primitive p) +++ "," +++ template (Property.subType p)
      +++ "," +++ template (Property.complex p) +++ "," +++ template (Property.enum p)
      +++ "," +++ (if Property.isArray p then "true" else "false") +++ "}".

Definition digit (c : ascii) : option Z :=
  let n := Z.of_nat (nat_of_ascii c) in
  if (48 <=? n)%Z && (n <=? 57)%Z then Some (n - 48)%Z else None.

Fixpoint digits (acc : Z) (s : string) : option Z :=
  match s with
  | EmptyString => Some acc
  | String c rest =>
      match digit c with
      | Some d => digits (10 * acc + d)%Z rest
      | None => None
      end
  end.

(** The unary plus on the keys of the examples: a short string of
    decimal digits is the integer it denotes, the empty string is zero
    and a word such as [default] is [NaN].  The other numeric literals
    of the language (signs, fractions, exponents, hexadecimal) do not
    occur in the examples and are not read by this instance. *)
Definition toNumber (s : string) : number :=
  match s with
  | EmptyString => Finite 0
  | _ =>
      match digits 0 s with
      | Some n => Finite (inject_Z n)
      | None => NaN
      end
  end.

End SampleHost.

(** ** Vocabulary of the statements *)

(** The array suffix of TypeScript. *)
Definition arrayOf (typeName : string) : string := typeName +++ "[]".

(** The values of [primitive] that [getPrimitiveTypeName] has a case for. *)
Definition recognizedPrimitives : list string :=
  ["integer"; "number"; "string"; "boolean"; "file"; "object"].

Definition recognized (primitive : option string) : bool :=
  existsb (strictEq primitive) recognizedPrimitives.

(** Number of kind fields among [primitive], [complex] and [enum] that a
    property sets, a field being set when the code's test on it passes. *)
Definition kindsSet (p : Property.t) : nat :=
  (if truthy (Property.primitive p) then 1 else 0)
  + (if truthy (Property.complex p) then 1 else 0)
  + (if truthy (Property.enum p) then 1 else 0).

(** A well-formed property sets exactly one kind field, and a primitive it
    sets is a recognized one. *)
Definition wellFormed (p : Property.t) : bool :=
  (kindsSet p =? 1)%nat
  && (negb (truthy (Property.primitive p)) || recognized (Property.primitive p)).

(** The last statement of [getDataType], applied to the name resolved by
    its branches. *)
Definition suffixed (p : Property.t) (typeName : string) : string :=
  if Property.isArray p then arrayOf typeName else typeName.

(** The parameters that [buildOperationDocComments] documents. *)
Definition describedParams (operation : Operation.t) : list OperationParameter.t :=
  filter (fun p => truthy (OperationParameter.description p))
         (orEmpty (Operation.parameters operation)).

(** The body lines for [description] and [description2]. *)
Definition descriptionLines (operation : Operation.t) : list string :=
  (if truthy (Operation.description operation)
   then [" * " +++ template (Operation.description operation)] else [])
  ++ (if truthy (Operation.description2 operation)
      then [" * " +++ template (Operation.description2 operation)] else []).

(** Some content line exists: a description, a second description or a
    parameter with a description. *)
Definition hasContent (operation : Operation.t) : bool :=
  truthy (Operation.description operation)
  || truthy (Operation.description2 operation)
  || existsb (fun p => truthy (OperationParameter.description p))
             (orEmpty (Operation.parameters operation)).

(** The operation with the parameters that have no description removed. *)
Definition onlyDescribed (operation : Operation.t) : Operation.t :=
  Operation.mk (Operation.description operation)
               (Operation.description2 operation)
               (Some (describedParams operation))
               (Operation.responses operation).

(** A status code of the success class: a number from 200 inclusive to
    300 exclusive. *)
Definition successStatus (statusCode : number) : Prop :=
  exists q, statusCode = Finite q /\ (200 <= q)%Q /\ (q < 300)%Q.

(** The response under key [statusKey] is one that [getReturnType] returns
    from: an own key whose number is a success status and whose response
    declares the data type [dataType]. *)
Definition qualifies (ToNumber : string -> number) (responses : Responses.t)
           (statusKey : string) (dataType : Property.t) : Prop :=
  Responses.hasOwnProperty responses statusKey = true
  /\ successStatus (ToNumber statusKey)
  /\ Response.dataType (Responses.get responses statusKey) = Some dataType.

(** The return type after the optional transformer of the options. *)
Definition transformed (options : MethodSignatureOptions.t) (returnType : string)
  : string :=
  match MethodSignatureOptions.returnTypeTransformer options with
  | Some transformer => transformer returnType
  | None => returnType
  end.

(** The [name: type] pairs of a parameter list, given the resolved types. *)
Definition parameterPairs (params : list OperationParameter.t) (types : list string)
  : list string :=
  map (fun pt => OperationParameter.name (fst pt) +++ ": " +++ snd pt)
      (combine params types).

(** The operation and options of the [getUser] example. *)
Definition getUserOperation : Operation.t :=
  Operation.mk None None
    (Some [OperationParameter.mk "id" None
             (Property.mk (Some "integer") None None None false)])
    (Some (Responses.literal
             [("200", Response.mk
                        (Some (Property.mk None None (Some "User") None false)))])).

Definition getUserOptions : MethodSignatureOptions.t :=
  MethodSignatureOptions.mk (ReturnTypeOptions.mk (Some "Models") None) None.

(** The responses [{"404": {}, "201": {dataType: Created}, "200":
    {dataType: Found}}], the properties being created in this order, and
    an operation that has them. *)
Definition createdType : Property.t :=
  Property.mk None None (Some "Created") None false.

Definition foundType : Property.t :=
  Property.mk None None (Some "Found") None false.

Definition descendingResponses : Responses.t :=
  Responses.literal
    [ ("404", Response.mk None);
      ("201", Response.mk (Some createdType));
      ("200", Response.mk (Some foundType)) ].

Definition descendingOperation : Operation.t :=
  Operation.mk None None None (Some descendingResponses).

(** Responses under keys that are not array indices, in the order of
    their creation. *)
Definition paddedResponses : Responses.t :=
  Responses.literal
    [ ("0201", Response.mk (Some createdType));
      ("0200", Response.mk (Some foundType)) ].

Definition border : string := "//------------------------------".

(** The documentation line that [buildOperationDocComments] pushes for a
    described parameter whose data type resolved to [typeName]. *)
Definition paramDocLine (param : OperationParameter.t) (typeName : string)
  : string :=
  " * @param {" +++ typeName +++ "} " +++ OperationParameter.name param
  +++ " - " +++ template (OperationParameter.description param).

Definition paramDocLines (params : list OperationParameter.t) (types : list string)
  : list string :=
  map (fun pt => paramDocLine (fst pt) (snd pt)) (combine params types).

(** A body between the opening and the closing line, or nothing for an
    empty body. *)
Definition docBlock (body : list string) : list string :=
  match body with
  | [] => []
  | _ => "/**" :: body ++ [" */"]
  end.

(** The data type of [param] resolves to [typeName] in namespace [ns]. *)
Definition paramResolvesTo (JSON_stringify : Property.t -> string) (ns : option string)
           (param : OperationParameter.t) (typeName : string) : Prop :=
  getDataType JSON_stringify (OperationParameter.dataType param) ns = Ok typeName.

(** The data type of [param] resolves in namespace [ns]. *)
Definition paramResolves (JSON_stringify : Property.t -> string) (ns : option string)
           (param : OperationParameter.t) : Prop :=
  exists typeName, paramResolvesTo JSON_stringify ns param typeName.

(** The operation with its parameters replaced. *)
Definition withParameters (operation : Operation.t)
           (params : list OperationParameter.t) : Operation.t :=
  Operation.mk (Operation.description operation)
               (Operation.description2 operation)
               (Some params)
               (Operation.responses operation).

(** The names that the primitive table can return. *)
Definition primitiveNames : list string :=
  ["number"; "Date"; "string"; "boolean"; "any"].

(** The name a property without primitive refers to: its complex name, or
    else its enum name. *)
Definition namedType (p : Property.t) : option string :=
  match present (Property.complex p) with
  | Some name => Some name
  | None => present (Property.enum p)
  end.

(** ** Strings and truthiness *)

Lemma append_assoc (a b c : string) : (a +++ b) +++ c = a +++ (b +++ c).
Proof.
  induction a as [|ch a IH]; simpl; [reflexivity | now rewrite IH].
Qed.

Lemma append_empty_r (a : string) : a +++ "" = a.
Proof.
  induction a as [|ch a IH]; simpl; [reflexivity | now rewrite IH].
Qed.

Lemma nonEmpty_append_r (a b : string) :
  nonEmpty b = true -> nonEmpty (a +++ b) = true.
Proof.
  destruct a; simpl; auto.
Qed.

Lemma truthy_present (v : option string) :
  truthy v = true -> present v = Some (template v).
Proof.
  destruct v as [s|]; simpl; [intros ->; reflexivity | discriminate].
Qed.

Lemma falsy_present (v : option string) :
  truthy v = false -> present v = None.
Proof.
  destruct v as [s|]; simpl; [intros ->; reflexivity | reflexivity].
Qed.

Lemma recognized_truthy (v : option string) :
  recognized v = true -> truthy v = true.
Proof.
  destruct v as [s|]; [|discriminate].
  unfold recognized, recognizedPrimitives; simpl.
  destruct s; [discriminate | reflexivity].
Qed.

(** ** The file header *)

(** C3, as amended.  A profile without a mode and a definition without
    metadata give six lines: the border, the opening marker, the fixed
    line naming the tool, the generator line, the closing marker and the
    border.  No mode line and no metadata line is present. *)
Theorem buildHeader_minimal_six_lines :
  forall profile : Profile.t,
    truthy (Profile.mode profile) = false ->
    buildHeader profile (Some (ApiDefinition.mk None)) =
      [ border;
        "// <auto-generated>";
        "//     Generated using the Swagen tool";
        "//     Generator: " +++ Profile.generator profile;
        "// </auto-generated>";
        border ].
Proof.
  intros profile Hmode. unfold buildHeader. rewrite Hmode. reflexivity.
Qed.

Lemma buildHeader_minimal_six_lines_witness :
  truthy (Profile.mode (Profile.mk "X" None)) = false /\
  buildHeader (Profile.mk "X" None) (Some (ApiDefinition.mk None)) =
    [ border;
      "// <auto-generated>";
      "//     Generated using the Swagen tool";
      "//     Generator: X";
      "// </auto-generated>";
      border ].
Proof.
  split; [reflexivity|].
  apply (buildHeader_minimal_six_lines (Profile.mk "X" None)). reflexivity.
Defined.

(** C3, as stated, fails: the header of [{generator: "X"}] and [{}] is not
    the five-line list of the claim, and does not have five lines. *)
Lemma buildHeader_minimal_not_five_lines :
  buildHeader (Profile.mk "X" None) (Some (ApiDefinition.mk None)) <>
    [ border;
      "// <auto-generated>";
      "//     Generator: X";
      "// </auto-generated>";
      border ]
  /\ List.length (buildHeader (Profile.mk "X" None) (Some (ApiDefinition.mk None)))
     <> 5%nat.
Proof.
  split; [intro H; apply (f_equal (@List.length string)) in H|];
    vm_compute in *; discriminate.
Qed.

(** ** The type resolver *)

Section TypeResolver.

Variable JSON_stringify : Property.t -> string.

Lemma getDataType_primitive_branch (p : Property.t) (ns : option string) :
  truthy (Property.primitive p) = true ->
  getDataType JSON_stringify p ns =
    (typeName <- getPrimitiveTypeName JSON_stringify p ;; Ok (suffixed p typeName)).
Proof.
  intros H. unfold getDataType. rewrite H. reflexivity.
Qed.

Lemma getDataType_complex_branch (p : Property.t) (ns : option string) :
  truthy (Property.primitive p) = false ->
  truthy (Property.complex p) = true ->
  getDataType JSON_stringify p ns =
    Ok (suffixed p (prefixNamespace (template (Property.complex p)) ns)).
Proof.
  intros H1 H2. unfold getDataType. rewrite H1, H2. reflexivity.
Qed.

Lemma getDataType_enum_branch (p : Property.t) (ns : option string) :
  truthy (Property.primitive p) = false ->
  truthy (Property.complex p) = false ->
  truthy (Property.enum p) = true ->
  getDataType JSON_stringify p ns =
    Ok (suffixed p (prefixNamespace (template (Property.enum p)) ns)).
Proof.
  intros H1 H2 H3. unfold getDataType. rewrite H1, H2, H3. reflexivity.
Qed.

Lemma getDataType_no_kind (p : Property.t) (ns : option string) :
  kindsSet p = 0%nat ->
  getDataType JSON_stringify p ns =
    Throw ("Cannot understand type of property in definition: "
           +++ JSON_stringify p).
Proof.
  unfold kindsSet, getDataType.
  destruct (truthy (Property.primitive p)), (truthy (Property.complex p)),
    (truthy (Property.enum p)); simpl; intros H; try discriminate H.
  reflexivity.
Qed.

(** The primitive table either returns a name or throws with the dump of
    the property, according to whether the primitive is recognized. *)
Lemma getPrimitiveTypeName_recognized (p : Property.t) :
  recognized (Property.primitive p) = true ->
  exists typeName, getPrimitiveTypeName JSON_stringify p = Ok typeName.
Proof.
  unfold recognized, recognizedPrimitives, getPrimitiveTypeName; simpl.
  destruct (strictEq (Property.primitive p) "integer"); simpl; [eauto|].
  destruct (strictEq (Property.primitive p) "number"); simpl; [eauto|].
  destruct (strictEq (Property.primitive p) "string"); simpl.
  { destruct (strictEq (Property.subType p) "date-time"); [eauto|].
    destruct (strictEq (Property.subType p) "uuid"); [eauto|].
    destruct (strictEq (Property.subType p) "byte"); eauto. }
  destruct (strictEq (Property.primitive p) "boolean"); simpl; [eauto|].
  destruct (strictEq (Property.primitive p) "file"); simpl; [eauto|].
  destruct (strictEq (Property.primitive p) "object"); simpl; [eauto|].
  discriminate.
Qed.

Lemma getPrimitiveTypeName_unrecognized (p : Property.t) :
  recognized (Property.primitive p) = false ->
  getPrimitiveTypeName JSON_stringify p =
    Throw ("Cannot translate primitive type " +++ JSON_stringify p).
Proof.
  unfold recognized, recognizedPrimitives, getPrimitiveTypeName; simpl.
  destruct (strictEq (Property.primitive p) "integer"); simpl; [discriminate|].
  destruct (strictEq (Property.primitive p) "number"); simpl; [discriminate|].
  destruct (strictEq (Property.primitive p) "string"); simpl; [discriminate|].
  destruct (strictEq (Property.primitive p) "boolean"); simpl; [discriminate|].
  destruct (strictEq (Property.primitive p) "file"); simpl; [discriminate|].
  destruct (strictEq (Property.primitive p) "object"); simpl; [discriminate|].
  reflexivity.
Qed.

(** C2, as amended.  For a property whose primitive is set, the resolved
    name is the one of the table: [number] for integer and number;
    for string, [Date] with subType date-time, [string] with subType
    uuid or without subType, [number] with subType byte; [boolean] for
    boolean; [any] for file and object.  [getDataType] returns that name
    when [isArray] is false and that name followed by the array suffix
    when [isArray] is true, whatever the namespace. *)
Theorem getDataType_primitive_table :
  forall (p : Property.t) (ns : option string),
    let resolvesTo typeName := getDataType JSON_stringify p ns = Ok (suffixed p typeName) in
    (Property.primitive p = Some "integer" \/ Property.primitive p = Some "number" ->
     resolvesTo "number")
    /\ (Property.primitive p = Some "string" ->
        Property.subType p = Some "date-time" -> resolvesTo "Date")
    /\ (Property.primitive p = Some "string" ->
        Property.subType p = Some "uuid" \/ Property.subType p = None ->
        resolvesTo "string")
    /\ (Property.primitive p = Some "string" ->
        Property.subType p = Some "byte" -> resolvesTo "number")
    /\ (Property.primitive p = Some "boolean" -> resolvesTo "boolean")
    /\ (Property.primitive p = Some "file" \/ Property.primitive p = Some "object" ->
        resolvesTo "any").
Proof.
  intros [prim sub cx en arr] ns resolvesTo; subst resolvesTo.
  unfold getDataType, getPrimitiveTypeName; simpl.
  repeat split.
  - intros [-> | ->]; reflexivity.
  - intros -> ->; reflexivity.
  - intros -> [-> | ->]; reflexivity.
  - intros -> ->; reflexivity.
  - intros ->; reflexivity.
  - intros [-> | ->]; reflexivity.
Qed.

(** C4.  With [isArray] true, [getDataType] returns the name resolved for
    the same property with [isArray] false followed by the array suffix,
    and returns nothing else; the namespace never changes the result for
    a primitive, and for a complex or enum name the prefix is inside the
    suffix. *)
Theorem getDataType_array_composes :
  forall (p : Property.t) (ns : option string),
    Property.isArray p = true ->
    (forall typeName,
        getDataType JSON_stringify (Property.withIsArray false p) ns = Ok typeName ->
        getDataType JSON_stringify p ns = Ok (arrayOf typeName))
    /\ (forall arrayName,
           getDataType JSON_stringify p ns = Ok arrayName ->
           exists typeName,
             getDataType JSON_stringify (Property.withIsArray false p) ns = Ok typeName
             /\ arrayName = arrayOf typeName)
    /\ (truthy (Property.primitive p) = true -> getDataType JSON_stringify p ns = getDataType JSON_stringify p None)
    /\ (forall n name,
           truthy (Property.primitive p) = false ->
           nonEmpty n = true ->
           (present (Property.complex p) = Some name
            \/ present (Property.complex p) = None
               /\ present (Property.enum p) = Some name) ->
           getDataType JSON_stringify p (Some n) = Ok (arrayOf (n +++ "." +++ name))
           /\ getDataType JSON_stringify p None = Ok (arrayOf name)).
Proof.
  intros [prim sub cx en arr] ns Harr; simpl in Harr; subst arr.
  unfold getDataType, Property.withIsArray; simpl.
  repeat split.
  - intros typeName.
    destruct (truthy prim).
    + unfold getPrimitiveTypeName; simpl.
      destruct (getPrimitiveTypeName JSON_stringify
                  (Property.mk prim sub cx en true)) eqn:E;
        unfold getPrimitiveTypeName in E; simpl in E.
      * repeat match type of E with
               | context [if ?c then _ else _] => destruct c
               end; inversion E; subst; simpl; intros H; inversion H; reflexivity.
      * repeat match type of E with
               | context [if ?c then _ else _] => destruct c
               end; try discriminate E; simpl; discriminate.
    + destruct (truthy cx); [simpl; intros H; inversion H; reflexivity|].
      destruct (truthy en); simpl; intros H; inversion H; reflexivity.
  - intros arrayName.
    destruct (truthy prim).
    + unfold getPrimitiveTypeName; simpl.
      repeat match goal with
             | |- context [if ?c then _ else _] => destruct c
             end; simpl; intros H; inversion H; eauto.
    + destruct (truthy cx); [simpl; intros H; inversion H; eauto|].
      destruct (truthy en); simpl; intros H; inversion H; eauto.
  - intros ->. reflexivity.
  - destruct n as [|ch n]; [discriminate|].
    destruct H1 as [Hc | [Hc He]].
    + destruct cx as [[|]|]; simpl in *; try discriminate.
      rewrite H. inversion Hc; reflexivity.
    + destruct cx as [[|]|]; simpl in *; try discriminate;
        destruct en as [[|]|]; simpl in *; try discriminate;
        rewrite H; inversion He; reflexivity.
  - destruct H1 as [Hc | [Hc He]].
    + destruct cx as [[|]|]; simpl in *; try discriminate.
      rewrite H. inversion Hc; reflexivity.
    + destruct cx as [[|]|]; simpl in *; try discriminate;
        destruct en as [[|]|]; simpl in *; try discriminate;
        rewrite H; inversion He; reflexivity.
Qed.

Lemma getDataType_returns (p : Property.t) (ns : option string) :
  wellFormed p = true ->
  exists typeName, getDataType JSON_stringify p ns = Ok typeName.
Proof.
  unfold wellFormed, kindsSet. intros H.
  apply andb_true_iff in H. destruct H as [Hone Hrec].
  destruct (truthy (Property.primitive p)) eqn:Hp.
  - simpl in Hrec.
    destruct (getPrimitiveTypeName_recognized p Hrec) as [t Ht].
    rewrite (getDataType_primitive_branch p ns Hp), Ht. simpl. eauto.
  - destruct (truthy (Property.complex p)) eqn:Hc.
    { rewrite (getDataType_complex_branch p ns Hp Hc). eauto. }
    destruct (truthy (Property.enum p)) eqn:He.
    { rewrite (getDataType_enum_branch p ns Hp Hc He). eauto. }
    discriminate Hone.
Qed.

(** C5.  Whatever other kind fields a property sets, [getDataType] uses
    the primitive table when [primitive] is set; otherwise the complex
    name when [complex] is set; otherwise the enum name when [enum] is
    set.  The array suffix follows in each case. *)
Theorem getDataType_precedence :
  forall (p : Property.t) (ns : option string),
    (truthy (Property.primitive p) = true ->
     getDataType JSON_stringify p ns =
       (typeName <- getPrimitiveTypeName JSON_stringify p ;;
        Ok (suffixed p typeName)))
    /\ (forall name,
           truthy (Property.primitive p) = false ->
           present (Property.complex p) = Some name ->
           getDataType JSON_stringify p ns = Ok (suffixed p (prefixNamespace name ns)))
    /\ (forall name,
           truthy (Property.primitive p) = false ->
           truthy (Property.complex p) = false ->
           present (Property.enum p) = Some name ->
           getDataType JSON_stringify p ns = Ok (suffixed p (prefixNamespace name ns))).
Proof.
  intros p ns. repeat split.
  - apply getDataType_primitive_branch.
  - intros name Hp Hc.
    assert (Ht : truthy (Property.complex p) = true)
      by (destruct (Property.complex p) as [[|]|]; simpl in *; congruence).
    rewrite (getDataType_complex_branch p ns Hp Ht).
    rewrite (truthy_present _ Ht) in Hc. now inversion Hc.
  - intros name Hp Hc He.
    assert (Ht : truthy (Property.enum p) = true)
      by (destruct (Property.enum p) as [[|]|]; simpl in *; congruence).
    rewrite (getDataType_enum_branch p ns Hp Hc Ht).
    rewrite (truthy_present _ Ht) in He. now inversion He.
Qed.

(** C6.  [getDataType] throws exactly in two cases, each time with a
    message that ends with the serialized property: when none of
    [primitive], [complex], [enum] is set, and when [primitive] is set to
    a value outside integer, number, string, boolean, file, object.
    On a well-formed property it returns a name. *)
Theorem getDataType_failure :
  forall (p : Property.t) (ns : option string),
    (forall message,
        getDataType JSON_stringify p ns = Throw message <->
        (kindsSet p = 0%nat
         /\ message = "Cannot understand type of property in definition: "
                      +++ JSON_stringify p)
        \/ (truthy (Property.primitive p) = true
            /\ recognized (Property.primitive p) = false
            /\ message = "Cannot translate primitive type "
                         +++ JSON_stringify p))
    /\ (wellFormed p = true -> exists typeName, getDataType JSON_stringify p ns = Ok typeName).
Proof.
  intros p ns. split.
  - intros message. split.
    + intros H.
      destruct (truthy (Property.primitive p)) eqn:Hp.
      * right. rewrite (getDataType_primitive_branch p ns Hp) in H.
        destruct (recognized (Property.primitive p)) eqn:Hr.
        -- destruct (getPrimitiveTypeName_recognized p Hr) as [t Ht].
           rewrite Ht in H. discriminate H.
        -- rewrite (getPrimitiveTypeName_unrecognized p Hr) in H.
           simpl in H. inversion H. auto.
      * destruct (truthy (Property.complex p)) eqn:Hc.
        { rewrite (getDataType_complex_branch p ns Hp Hc) in H. discriminate H. }
        destruct (truthy (Property.enum p)) eqn:He.
        { rewrite (getDataType_enum_branch p ns Hp Hc He) in H. discriminate H. }
        left.
        assert (Hk : kindsSet p = 0%nat)
          by (unfold kindsSet; rewrite Hp, Hc, He; reflexivity).
        rewrite (getDataType_no_kind p ns Hk) in H. inversion H. auto.
    + intros [[Hk ->] | (Hp & Hr & ->)].
      * apply getDataType_no_kind; assumption.
      * rewrite (getDataType_primitive_branch p ns Hp).
        rewrite (getPrimitiveTypeName_unrecognized p Hr). reflexivity.
  - apply getDataType_returns.
Qed.

End TypeResolver.

(** ** Documentation comments *)

Section DocComments.

Variable JSON_stringify : Property.t -> string.

Lemma documentParams_shape (params : list OperationParameter.t) :
  forall comments lines,
    documentParams JSON_stringify comments params = Ok lines ->
    exists docs,
      lines = comments ++ docs /\ List.length docs = List.length params.
Proof.
  induction params as [|param rest IH]; simpl; intros comments lines H.
  - inversion H. exists []. now rewrite app_nil_r.
  - destruct (getDataType JSON_stringify (OperationParameter.dataType param) None)
      as [dataType|m]; simpl in H; [|discriminate H].
    apply IH in H. destruct H as [docs [-> Hlen]].
    unfold push. rewrite <- app_assoc. simpl.
    eexists; split; [reflexivity|]. simpl. now rewrite Hlen.
Qed.

Lemma documentParams_returns (params : list OperationParameter.t) :
  (forall param, In param params ->
                 wellFormed (OperationParameter.dataType param) = true) ->
  forall comments,
  exists lines, documentParams JSON_stringify comments params = Ok lines.
Proof.
  induction params as [|param rest IH]; simpl; intros Hwf comments.
  - eauto.
  - destruct (getDataType_returns JSON_stringify
                (OperationParameter.dataType param) None
                (Hwf param (or_introl eq_refl))) as [t Ht].
    rewrite Ht. simpl. apply IH. intros q Hq. apply Hwf. now right.
Qed.

Lemma describedParams_nil (operation : Operation.t) :
  existsb (fun p => truthy (OperationParameter.description p))
          (orEmpty (Operation.parameters operation)) = false ->
  describedParams operation = [].
Proof.
  unfold describedParams.
  induction (orEmpty (Operation.parameters operation)) as [|p ps IH]; simpl.
  - reflexivity.
  - destruct (truthy (OperationParameter.description p)); simpl;
      [discriminate | exact IH].
Qed.

Lemma describedParams_cons (operation : Operation.t) :
  existsb (fun p => truthy (OperationParameter.description p))
          (orEmpty (Operation.parameters operation)) = true ->
  describedParams operation <> [].
Proof.
  unfold describedParams.
  induction (orEmpty (Operation.parameters operation)) as [|p ps IH]; simpl.
  - discriminate.
  - destruct (truthy (OperationParameter.description p)); simpl;
      [discriminate | exact IH].
Qed.

Lemma buildOperationDocComments_unfold (operation : Operation.t) :
  buildOperationDocComments JSON_stringify operation =
    (comments <- documentParams JSON_stringify (descriptionLines operation)
                                (describedParams operation) ;;
     Ok (if (0 <? List.length comments)%nat
         then "/**" :: comments ++ [" */"]
         else comments)).
Proof.
  unfold buildOperationDocComments, descriptionLines, describedParams, push, unshift.
  destruct (truthy (Operation.description operation)),
    (truthy (Operation.description2 operation)); reflexivity.
Qed.

(** C7.  Without a description, a second description and a described
    parameter the result is the empty sequence.  Otherwise a result, when
    there is one, is the opening line, the description lines followed by
    one line per described parameter, and the closing line.  With only
    [description] set the result is the three lines: opening, body,
    closing. *)
Theorem buildOperationDocComments_wrapping :
  forall operation : Operation.t,
    (hasContent operation = false ->
     buildOperationDocComments JSON_stringify operation = Ok [])
    /\ (forall lines,
           buildOperationDocComments JSON_stringify operation = Ok lines ->
           if hasContent operation
           then exists docs,
               lines = "/**" :: (descriptionLines operation ++ docs) ++ [" */"]
               /\ List.length docs = List.length (describedParams operation)
               /\ descriptionLines operation ++ docs <> []
           else lines = [])
    /\ (forall text,
           present (Operation.description operation) = Some text ->
           truthy (Operation.description2 operation) = false ->
           describedParams operation = [] ->
           buildOperationDocComments JSON_stringify operation =
             Ok ["/**"; " * " +++ text; " */"]).
Proof.
  intros operation.
  assert (Hempty : hasContent operation = false ->
                   buildOperationDocComments JSON_stringify operation = Ok []).
  { unfold hasContent. intros H.
    apply orb_false_iff in H. destruct H as [H Hparams].
    apply orb_false_iff in H. destruct H as [Hd Hd2].
    rewrite buildOperationDocComments_unfold.
    rewrite (describedParams_nil operation Hparams).
    unfold descriptionLines. rewrite Hd, Hd2. reflexivity. }
  split; [exact Hempty|]. split.
  - intros lines H. destruct (hasContent operation) eqn:Hc.
    + rewrite buildOperationDocComments_unfold in H.
      destruct (documentParams JSON_stringify (descriptionLines operation)
                               (describedParams operation))
        as [comments|m] eqn:E; simpl in H; [|discriminate H].
      apply documentParams_shape in E. destruct E as [docs [-> Hlen]].
      assert (Hne : descriptionLines operation ++ docs <> []).
      { unfold hasContent in Hc. unfold descriptionLines.
        destruct (truthy (Operation.description operation)); [discriminate|].
        destruct (truthy (Operation.description2 operation)); [discriminate|].
        simpl in Hc. apply describedParams_cons in Hc.
        destruct docs; [|discriminate].
        destruct (describedParams operation); [congruence | discriminate Hlen]. }
      exists docs. repeat split; try assumption.
      destruct (descriptionLines operation ++ docs); [congruence|].
      simpl in H. now inversion H.
    + rewrite (Hempty eq_refl) in H. now inversion H.
  - intros text Hd Hd2 Hparams.
    rewrite buildOperationDocComments_unfold, Hparams.
    unfold descriptionLines. rewrite Hd2.
    destruct (Operation.description operation) as [[|ch d]|]; simpl in *;
      try discriminate.
    inversion Hd. reflexivity.
Qed.

Lemma filter_described_idem (params : list OperationParameter.t) :
  filter (fun p => truthy (OperationParameter.description p))
         (filter (fun p => truthy (OperationParameter.description p)) params)
  = filter (fun p => truthy (OperationParameter.description p)) params.
Proof.
  induction params as [|p ps IH]; simpl; [reflexivity|].
  destruct (truthy (OperationParameter.description p)) eqn:E; simpl;
    [rewrite E, IH; reflexivity | exact IH].
Qed.

(** C10.  [buildOperationDocComments] reads the [dataType] of described
    parameters only: removing the parameters without a description does
    not change its outcome, and it returns as soon as every parameter
    with a non-empty description has a well-formed [dataType], whatever
    the [dataType] of the others. *)
Theorem buildOperationDocComments_described_only :
  forall operation : Operation.t,
    buildOperationDocComments JSON_stringify operation =
      buildOperationDocComments JSON_stringify (onlyDescribed operation)
    /\ ((forall param,
            In param (orEmpty (Operation.parameters operation)) ->
            truthy (OperationParameter.description param) = true ->
            wellFormed (OperationParameter.dataType param) = true) ->
        exists lines,
          buildOperationDocComments JSON_stringify operation = Ok lines).
Proof.
  intros operation. split.
  - rewrite !buildOperationDocComments_unfold.
    unfold describedParams at 2. unfold onlyDescribed at 2. simpl.
    unfold describedParams. rewrite filter_described_idem. reflexivity.
  - intros Hwf. rewrite buildOperationDocComments_unfold.
    destruct (documentParams_returns (describedParams operation))
      with (comments := descriptionLines operation) as [lines Hlines].
    { intros param Hin. unfold describedParams in Hin.
      apply filter_In in Hin. destruct Hin as [Hin Hd]. now apply Hwf. }
    rewrite Hlines. simpl. eauto.
Qed.

End DocComments.

(** ** Return types and method signatures *)

Section Signatures.

Variable JSON_stringify : Property.t -> string.
Variable ToNumber : string -> number.

Lemma successStatus_test (statusCode : number) :
  geq statusCode 200 && lt statusCode 300 = true <-> successStatus statusCode.
Proof.
  unfold successStatus. destruct statusCode as [|positive|q]; simpl.
  - split; [discriminate | intros (q & H & _); discriminate H].
  - split; [destruct positive; discriminate | intros (q & H & _); discriminate H].
  - rewrite andb_true_iff, negb_true_iff, Qle_bool_iff. split.
    + intros [Hlow Hhigh]. exists q. repeat split; [assumption|].
      apply Qnot_le_lt. intros Hle. apply Qle_bool_iff in Hle. congruence.
    + intros (q' & Heq & Hlow & Hhigh). inversion Heq; subst q'.
      split; [assumption|].
      destruct (Qle_bool 300 q) eqn:E; [|reflexivity].
      apply Qle_bool_iff in E. exfalso. exact (Qlt_not_le _ _ Hhigh E).
Qed.

(** A success status is a number whose integer part is from 200 to 299. *)
Lemma successStatus_floor (q : Q) :
  successStatus (Finite q) <-> (200 <= Qfloor q < 300)%Z.
Proof.
  unfold successStatus. split.
  - intros (q' & Heq & Hlow & Hhigh). inversion Heq; subst q'. split.
    + exact (Qfloor_resp_le _ _ Hlow).
    + destruct (Z_lt_le_dec (Qfloor q) 300) as [Hlt|Hge]; [exact Hlt|].
      exfalso. apply (Qlt_not_le _ _ Hhigh).
      apply Qle_trans with (inject_Z (Qfloor q)); [|apply Qfloor_le].
      unfold Qle; simpl; lia.
  - intros [Hlow Hhigh]. exists q. repeat split.
    + apply Qle_trans with (inject_Z (Qfloor q)); [|apply Qfloor_le].
      unfold Qle; simpl; lia.
    + apply Qlt_le_trans with (inject_Z (Qfloor q + 1)); [apply Qlt_floor|].
      unfold Qle; simpl; lia.
Qed.

Lemma scanResponses_skip (responses : Responses.t) (options : ReturnTypeOptions.t)
      (statusKey : string) (rest : list string) :
  (forall dataType, ~ qualifies ToNumber responses statusKey dataType) ->
  scanResponses JSON_stringify ToNumber responses options (statusKey :: rest) =
    scanResponses JSON_stringify ToNumber responses options rest.
Proof.
  intros Hnot. simpl.
  destruct (Responses.hasOwnProperty responses statusKey) eqn:Hown; [|reflexivity].
  destruct (geq (ToNumber statusKey) 200 && lt (ToNumber statusKey) 300) eqn:Hrange;
    [|reflexivity].
  destruct (Response.dataType (Responses.get responses statusKey))
    as [dataType|] eqn:Hdt; [|reflexivity].
  exfalso. apply (Hnot dataType). repeat split; try assumption.
  now apply successStatus_test.
Qed.

Lemma scanResponses_hit (responses : Responses.t) (options : ReturnTypeOptions.t)
      (statusKey : string) (rest : list string) (dataType : Property.t) :
  qualifies ToNumber responses statusKey dataType ->
  scanResponses JSON_stringify ToNumber responses options (statusKey :: rest) =
    getDataType JSON_stringify dataType (ReturnTypeOptions.modelsNs options).
Proof.
  intros (Hown & Hstatus & Hdt). simpl.
  apply successStatus_test in Hstatus. rewrite Hown, Hstatus, Hdt. reflexivity.
Qed.

Lemma scanResponses_none (responses : Responses.t) (options : ReturnTypeOptions.t)
      (keys : list string) :
  (forall statusKey dataType,
      In statusKey keys -> ~ qualifies ToNumber responses statusKey dataType) ->
  scanResponses JSON_stringify ToNumber responses options keys =
    Ok (orElse (ReturnTypeOptions.voidType options) "void").
Proof.
  induction keys as [|statusKey rest IH]; intros Hnot; [reflexivity|].
  rewrite scanResponses_skip.
  - apply IH. intros k d Hin. apply Hnot. now right.
  - intros d. apply Hnot. now left.
Qed.

Lemma arrayIndex_written (key : string) (index : N) :
  Responses.arrayIndex key = Some index ->
  NilEmpty.string_of_uint (N.to_uint index) = key.
Proof.
  unfold Responses.arrayIndex.
  destruct (NilEmpty.uint_of_string key) as [digits|]; [|discriminate].
  cbv zeta.
  destruct (String.eqb (NilEmpty.string_of_uint (N.to_uint (N.of_uint digits))) key)
    eqn:Hwritten; simpl; [|discriminate].
  destruct (N.of_uint digits <? 4294967295)%N; [|discriminate].
  intros H. inversion H; subst. now apply String.eqb_eq.
Qed.

Lemma arrayIndex_injective (a b : string) (index : N) :
  Responses.arrayIndex a = Some index ->
  Responses.arrayIndex b = Some index ->
  a = b.
Proof.
  intros Ha Hb. apply arrayIndex_written in Ha. apply arrayIndex_written in Hb.
  congruence.
Qed.

Lemma insertIndex_In (entry : N * string) (sorted : list (N * string))
      (x : N * string) :
  In x (Responses.insertIndex entry sorted) <-> x = entry \/ In x sorted.
Proof.
  induction sorted as [|first rest IH]; simpl.
  - intuition.
  - destruct (fst entry <? fst first)%N; simpl; [intuition|].
    rewrite IH. intuition.
Qed.

Lemma indexKeys_In (keys : list string) (index : N) (key : string) :
  In (index, key) (Responses.indexKeys keys) <->
  In key keys /\ Responses.arrayIndex key = Some index.
Proof.
  induction keys as [|first rest IH]; simpl; [intuition|].
  destruct (Responses.arrayIndex first) as [n|] eqn:E.
  - rewrite insertIndex_In, IH. split.
    + intros [H | [Hin Hidx]]; [inversion H; subst; auto | auto].
    + intros [[<- | Hin] Hidx]; [left; congruence | auto].
  - rewrite IH. split; [intuition|].
    intros [[<- | Hin] Hidx]; [congruence | auto].
Qed.

Lemma insertIndex_sorted (entry : N * string) (sorted : list (N * string)) :
  StronglySorted (fun x y => (fst x <= fst y)%N) sorted ->
  StronglySorted (fun x y => (fst x <= fst y)%N)
                 (Responses.insertIndex entry sorted).
Proof.
  induction 1 as [|first rest Hsorted IH Hfirst]; simpl.
  - constructor; constructor.
  - destruct (fst entry <? fst first)%N eqn:E.
    + apply N.ltb_lt in E. constructor.
      * constructor; assumption.
      * constructor; [lia|].
        rewrite Forall_forall in *. intros x Hx. specialize (Hfirst x Hx). lia.
    + apply N.ltb_ge in E. constructor; [exact IH|].
      rewrite Forall_forall in *. intros x Hx.
      apply insertIndex_In in Hx. destruct Hx as [-> | Hx]; [exact E | auto].
Qed.

Lemma indexKeys_sorted (keys : list string) :
  StronglySorted (fun x y => (fst x <= fst y)%N) (Responses.indexKeys keys).
Proof.
  induction keys as [|first rest IH]; simpl; [constructor|].
  destruct (Responses.arrayIndex first); [now apply insertIndex_sorted | exact IH].
Qed.

Lemma nameKeys_In (keys : list string) (key : string) :
  In key (Responses.nameKeys keys) <->
  In key keys /\ Responses.arrayIndex key = None.
Proof.
  unfold Responses.nameKeys. rewrite filter_In.
  destruct (Responses.arrayIndex key); intuition discriminate.
Qed.

Lemma scanResponses_skip_all (responses : Responses.t)
      (options : ReturnTypeOptions.t) (keys rest : list string) :
  (forall statusKey dataType,
      In statusKey keys -> ~ qualifies ToNumber responses statusKey dataType) ->
  scanResponses JSON_stringify ToNumber responses options (keys ++ rest) =
    scanResponses JSON_stringify ToNumber responses options rest.
Proof.
  induction keys as [|statusKey keys IH]; intros Hnot; [reflexivity|].
  simpl app. rewrite scanResponses_skip.
  - apply IH. intros k d Hin. apply Hnot. now right.
  - intros d. apply Hnot. now left.
Qed.

(** Among keys sorted by index, the scan stops at the qualifying key of
    smallest index. *)
Lemma scanResponses_least_index (responses : Responses.t)
      (options : ReturnTypeOptions.t) (index : N) (statusKey : string)
      (dataType : Property.t) (sorted : list (N * string)) :
  forall rest,
    StronglySorted (fun x y => (fst x <= fst y)%N) sorted ->
    (forall m h, In (m, h) sorted -> Responses.arrayIndex h = Some m) ->
    In (index, statusKey) sorted ->
    qualifies ToNumber responses statusKey dataType ->
    (forall m h other,
        In (m, h) sorted -> (m < index)%N ->
        ~ qualifies ToNumber responses h other) ->
    scanResponses JSON_stringify ToNumber responses options
                  (map snd sorted ++ rest)
    = getDataType JSON_stringify dataType (ReturnTypeOptions.modelsNs options).
Proof.
  intros rest Hsorted. induction Hsorted as [|[m h] tail Htail IH Hhead];
    intros Hindex Hin Hq Hsmaller; [destruct Hin|].
  simpl map. simpl app.
  assert (Hle : (m <= index)%N).
  { destruct Hin as [Heq | Hin]; [inversion Heq; lia|].
    rewrite Forall_forall in Hhead. exact (Hhead _ Hin). }
  destruct (N.eq_dec m index) as [-> | Hne].
  - assert (h = statusKey) as ->.
    { apply arrayIndex_injective with index.
      - apply Hindex. now left.
      - apply Hindex. exact Hin. }
    now apply scanResponses_hit.
  - rewrite scanResponses_skip.
    + apply IH.
      * intros m' h' Hin'. apply Hindex. now right.
      * destruct Hin as [Heq | Hin]; [inversion Heq; congruence | exact Hin].
      * exact Hq.
      * intros m' h' other Hin'. apply Hsmaller. now right.
    + intros other. apply (Hsmaller m h other); [now left | lia].
Qed.

(** C1, as amended.  Without responses the return type is the void
    default, which is [options.voidType] when present and [void] when
    absent.  With responses it is the data type, resolved in the namespace
    [options.modelsNs], of the first response, in the order in which
    [for ... in] enumerates the object, whose key is a success status and
    which declares a data type; when no response is such, it is the void
    default again.  That order is not the order of insertion: own keys
    that are array indices come first, in ascending numeric order, so
    among them the qualifying key of smallest index decides; the other
    own keys follow in the order of their creation and decide only when no
    index key qualifies.  For an index key read as the integer it writes,
    a success status is an integer from 200 to 299. *)
Theorem getReturnType_first_success :
  forall (operation : Operation.t) (options : ReturnTypeOptions.t),
    let voidDefault := orElse (ReturnTypeOptions.voidType options) "void" in
    (Operation.responses operation = None ->
     getReturnType JSON_stringify ToNumber operation options = Ok voidDefault)
    /\ (forall responses before statusKey after dataType,
           Operation.responses operation = Some responses ->
           Responses.forIn responses = before ++ statusKey :: after ->
           (forall earlier other,
               In earlier before -> ~ qualifies ToNumber responses earlier other) ->
           qualifies ToNumber responses statusKey dataType ->
           getReturnType JSON_stringify ToNumber operation options =
             getDataType JSON_stringify dataType
                         (ReturnTypeOptions.modelsNs options))
    /\ (forall responses,
           Operation.responses operation = Some responses ->
           (forall statusKey dataType,
               In statusKey (Responses.forIn responses) ->
               ~ qualifies ToNumber responses statusKey dataType) ->
           getReturnType JSON_stringify ToNumber operation options = Ok voidDefault)
    /\ (ReturnTypeOptions.voidType options = None -> voidDefault = "void")
    /\ (forall name,
           ReturnTypeOptions.voidType options = Some name ->
           nonEmpty name = true -> voidDefault = name)
    /\ (forall responses statusKey index dataType,
           Operation.responses operation = Some responses ->
           In statusKey (map fst (Responses.own responses)) ->
           Responses.arrayIndex statusKey = Some index ->
           qualifies ToNumber responses statusKey dataType ->
           (forall smallerKey smaller other,
               In smallerKey (map fst (Responses.own responses)) ->
               Responses.arrayIndex smallerKey = Some smaller ->
               (smaller < index)%N ->
               ~ qualifies ToNumber responses smallerKey other) ->
           getReturnType JSON_stringify ToNumber operation options =
             getDataType JSON_stringify dataType
                         (ReturnTypeOptions.modelsNs options))
    /\ (forall responses before statusKey after dataType,
           Operation.responses operation = Some responses ->
           Responses.nameKeys (map fst (Responses.own responses))
           = before ++ statusKey :: after ->
           (forall indexKey index other,
               In indexKey (map fst (Responses.own responses)) ->
               Responses.arrayIndex indexKey = Some index ->
               ~ qualifies ToNumber responses indexKey other) ->
           (forall earlier other,
               In earlier before -> ~ qualifies ToNumber responses earlier other) ->
           qualifies ToNumber responses statusKey dataType ->
           getReturnType JSON_stringify ToNumber operation options =
             getDataType JSON_stringify dataType
                         (ReturnTypeOptions.modelsNs options))
    /\ (forall statusKey index,
           Responses.arrayIndex statusKey = Some index ->
           ToNumber statusKey = Finite (inject_Z (Z.of_N index)) ->
           (successStatus (ToNumber statusKey) <-> (200 <= index < 300)%N)).
Proof.
  intros operation options voidDefault. unfold getReturnType.
  split; [intros ->; reflexivity|].
  split; [|split; [|split; [|split; [|split; [|split]]]]].
  - intros responses before statusKey after dataType -> -> Hbefore Hq.
    induction before as [|k before IH]; simpl app.
    + now apply scanResponses_hit.
    + rewrite scanResponses_skip.
      * apply IH. intros e o Hin. apply Hbefore. now right.
      * intros d. apply Hbefore. now left.
  - intros responses -> Hnot. now apply scanResponses_none.
  - subst voidDefault. intros ->. reflexivity.
  - subst voidDefault. intros name -> Hne. unfold orElse, present.
    now rewrite Hne.
  - intros responses statusKey index dataType -> Hown Hindex Hq Hsmaller.
    unfold Responses.forIn, Responses.ownPropertyKeys.
    rewrite <- app_assoc.
    apply scanResponses_least_index with (index := index) (statusKey := statusKey).
    + apply indexKeys_sorted.
    + intros m h Hin. now apply indexKeys_In in Hin.
    + apply indexKeys_In. auto.
    + exact Hq.
    + intros m h other Hin Hlt. apply indexKeys_In in Hin.
      destruct Hin as [Hin Hidx]. exact (Hsmaller h m other Hin Hidx Hlt).
  - intros responses before statusKey after dataType -> Hnames Hindex Hbefore Hq.
    unfold Responses.forIn, Responses.ownPropertyKeys.
    rewrite <- app_assoc, scanResponses_skip_all.
    + rewrite Hnames, <- app_assoc, scanResponses_skip_all.
      * simpl app. now apply scanResponses_hit.
      * intros k d Hin. now apply Hbefore.
    + intros k d Hin. apply in_map_iff in Hin.
      destruct Hin as [[m h] [Heq Hin]]. simpl in Heq. subst h.
      apply indexKeys_In in Hin. destruct Hin as [Hin Hidx].
      exact (Hindex k m d Hin Hidx).
  - intros statusKey index Hindex Hnumber. rewrite Hnumber.
    rewrite successStatus_floor, Qfloor_Z. lia.
Qed.

Lemma parameterPairs_cons (param : OperationParameter.t)
      (rest : list OperationParameter.t) (typeName : string) (types : list string) :
  parameterPairs (param :: rest) (typeName :: types) =
    (OperationParameter.name param +++ ": " +++ typeName)
      :: parameterPairs rest types.
Proof. reflexivity. Qed.

(** The reduction of [signatureParameters] from an accumulator that is
    empty or not: the separator is written before every pair but the
    first. *)
Lemma reduce_parameters (options : MethodSignatureOptions.t)
      (params : list OperationParameter.t) :
  forall types accumulate,
    Forall2 (fun param typeName =>
               getDataType JSON_stringify (OperationParameter.dataType param)
                           (ReturnTypeOptions.modelsNs options)
               = Ok typeName) params types ->
    reduce (appendParameter JSON_stringify options) params accumulate
    = Ok (match parameterPairs params types with
          | [] => accumulate
          | pairs =>
              (if nonEmpty accumulate then accumulate +++ ", " else accumulate)
              +++ String.concat ", " pairs
          end).
Proof.
  induction params as [|param rest IH]; intros types accumulate Hall;
    inversion Hall as [|? typeName ? types' Hhead Htail]; subst.
  - reflexivity.
  - simpl reduce. unfold appendParameter at 1. rewrite Hhead.
    unfold bind. cbv beta iota zeta.
    rewrite (IH types' _ Htail), parameterPairs_cons.
    set (pair := OperationParameter.name param +++ ": " +++ typeName).
    set (start := if nonEmpty accumulate then accumulate +++ ", " else accumulate).
    assert (Hne : nonEmpty (start +++ pair) = true).
    { apply nonEmpty_append_r. apply nonEmpty_append_r. reflexivity. }
    destruct (parameterPairs rest types') as [|next pairs] eqn:Hpairs.
    + reflexivity.
    + rewrite Hne. f_equal.
      change (String.concat ", " (pair :: next :: pairs))
        with (pair +++ ", " +++ String.concat ", " (next :: pairs)).
      now rewrite !append_assoc.
Qed.

Lemma signatureParameters_join (operation : Operation.t)
      (options : MethodSignatureOptions.t) (types : list string) :
  Forall2 (fun param typeName =>
             getDataType JSON_stringify (OperationParameter.dataType param)
                         (ReturnTypeOptions.modelsNs options)
             = Ok typeName)
          (orEmpty (Operation.parameters operation)) types ->
  signatureParameters JSON_stringify operation options =
    Ok (String.concat ", "
          (parameterPairs (orEmpty (Operation.parameters operation)) types)).
Proof.
  intros Hall. unfold signatureParameters.
  rewrite (reduce_parameters options "" Hall).
  destruct (parameterPairs _ types); reflexivity.
Qed.

(** C8.  When every parameter type and the return type resolve, the
    signature is the operation name, the [name: type] pairs of the
    parameters in their order joined by a comma and a space between
    parentheses, a colon, and the return type (after the transformer of
    the options, when there is one).  For [getUser] with the parameter
    [id] of primitive integer, a response 200 of complex [User] and the
    namespace [Models], it is [getUser(id: number): Models.User]. *)
Theorem getMethodSignature_composition :
  forall (operationName : string) (operation : Operation.t)
         (options : MethodSignatureOptions.t),
    (forall types returnType,
        Forall2 (fun param typeName =>
                   getDataType JSON_stringify (OperationParameter.dataType param)
                               (ReturnTypeOptions.modelsNs options)
                   = Ok typeName)
                (orEmpty (Operation.parameters operation)) types ->
        getReturnType JSON_stringify ToNumber operation options = Ok returnType ->
        getMethodSignature JSON_stringify ToNumber operationName operation options =
          Ok (operationName +++ "("
              +++ String.concat ", "
                    (parameterPairs (orEmpty (Operation.parameters operation)) types)
              +++ "): " +++ transformed options returnType))
    /\ (orEmpty (Operation.parameters operation) = [] ->
        forall returnType,
          getReturnType JSON_stringify ToNumber operation options = Ok returnType ->
          getMethodSignature JSON_stringify ToNumber operationName operation options =
            Ok (operationName +++ "(): " +++ transformed options returnType))
    /\ (ToNumber "200" = Finite 200 ->
        getMethodSignature JSON_stringify ToNumber "getUser"
                           getUserOperation getUserOptions =
          Ok "getUser(id: number): Models.User").
Proof.
  intros operationName operation options.
  assert (Hgeneral : forall types returnType,
        Forall2 (fun param typeName =>
                   getDataType JSON_stringify (OperationParameter.dataType param)
                               (ReturnTypeOptions.modelsNs options)
                   = Ok typeName)
                (orEmpty (Operation.parameters operation)) types ->
        getReturnType JSON_stringify ToNumber operation options = Ok returnType ->
        getMethodSignature JSON_stringify ToNumber operationName operation options =
          Ok (operationName +++ "("
              +++ String.concat ", "
                    (parameterPairs (orEmpty (Operation.parameters operation)) types)
              +++ "): " +++ transformed options returnType)).
  { intros types returnType Hall Hret. unfold getMethodSignature.
    rewrite (signatureParameters_join _ _ Hall), Hret. reflexivity. }
  split; [exact Hgeneral|]. split.
  - intros Hnil returnType Hret.
    rewrite (Hgeneral [] returnType); [|rewrite Hnil; constructor | exact Hret].
    rewrite Hnil. reflexivity.
  - intros H200. unfold getMethodSignature, getReturnType. simpl.
    rewrite H200. reflexivity.
Qed.

(** C9.  With and without a return type transformer, the signature has
    the same operation name and the same parameter list; the return
    type segment after the closing parenthesis is the resolved return
    type in one case and its image by the transformer in the other.
    Either both calls return or both throw. *)
Theorem getMethodSignature_transformer_frame :
  forall (operationName : string) (operation : Operation.t)
         (base : ReturnTypeOptions.t) (transformer : string -> string),
    let plain := MethodSignatureOptions.mk base None in
    let wrapped := MethodSignatureOptions.mk base (Some transformer) in
    signatureParameters JSON_stringify operation wrapped =
      signatureParameters JSON_stringify operation plain
    /\ (forall signature,
           getMethodSignature JSON_stringify ToNumber operationName operation plain
           = Ok signature ->
           exists parameters returnType,
             signatureParameters JSON_stringify operation plain = Ok parameters
             /\ getReturnType JSON_stringify ToNumber operation base = Ok returnType
             /\ signature =
                  operationName +++ "(" +++ parameters +++ "): " +++ returnType
             /\ getMethodSignature JSON_stringify ToNumber operationName
                                   operation wrapped
                = Ok (operationName +++ "(" +++ parameters +++ "): "
                      +++ transformer returnType))
    /\ (forall message,
           getMethodSignature JSON_stringify ToNumber operationName operation plain
           = Throw message <->
           getMethodSignature JSON_stringify ToNumber operationName operation wrapped
           = Throw message).
Proof.
  intros operationName operation base transformer plain wrapped.
  split; [reflexivity|].
  unfold getMethodSignature.
  change (signatureParameters JSON_stringify operation wrapped)
    with (signatureParameters JSON_stringify operation plain).
  change (MethodSignatureOptions.base wrapped) with base.
  change (MethodSignatureOptions.base plain) with base.
  destruct (signatureParameters JSON_stringify operation plain)
    as [parameters|m]; simpl.
  - destruct (getReturnType JSON_stringify ToNumber operation base)
      as [returnType|m]; simpl.
    + split.
      * intros signature H. inversion H. exists parameters, returnType.
        repeat split.
      * intros message. split; discriminate.
    + split; [discriminate|]. intros message. reflexivity.
  - split; [discriminate|]. intros message. reflexivity.
Qed.

End Signatures.

(** ** The statements at concrete inputs *)

(** C2, as stated, fails: an array of integers resolves to [number[]], not
    to the numeric type itself. *)
Lemma getDataType_integer_array_not_number :
  getDataType SampleHost.stringify
              (Property.mk (Some "integer") None None None true) None
  = Ok "number[]"
  /\ getDataType SampleHost.stringify
                 (Property.mk (Some "integer") None None None true) None
     <> Ok "number".
Proof.
  split; [reflexivity | discriminate].
Qed.

Lemma getDataType_primitive_table_witness :
  getDataType SampleHost.stringify
              (Property.mk (Some "integer") None None None false) None
  = Ok "number"
  /\ getDataType SampleHost.stringify
                 (Property.mk (Some "string") (Some "date-time") None None true)
                 (Some "Models")
     = Ok "Date[]"
  /\ getDataType SampleHost.stringify
                 (Property.mk (Some "string") None None None false) None
     = Ok "string"
  /\ getDataType SampleHost.stringify
                 (Property.mk (Some "string") (Some "byte") None None false) None
     = Ok "number"
  /\ getDataType SampleHost.stringify
                 (Property.mk (Some "boolean") None None None false) None
     = Ok "boolean"
  /\ getDataType SampleHost.stringify
                 (Property.mk (Some "object") None None None true) None
     = Ok "any[]".
Proof.
  split; [|split; [|split; [|split; [|split]]]].
  - apply (proj1 (getDataType_primitive_table SampleHost.stringify
                    (Property.mk (Some "integer") None None None false) None)).
    left; reflexivity.
  - apply (proj1 (proj2 (getDataType_primitive_table SampleHost.stringify
                           (Property.mk (Some "string") (Some "date-time")
                                        None None true)
                           (Some "Models")))); reflexivity.
  - apply (proj1 (proj2 (proj2 (getDataType_primitive_table SampleHost.stringify
                                  (Property.mk (Some "string") None None None false)
                                  None))));
      [reflexivity | right; reflexivity].
  - apply (proj1 (proj2 (proj2 (proj2
             (getDataType_primitive_table SampleHost.stringify
                (Property.mk (Some "string") (Some "byte") None None false)
                None))))); reflexivity.
  - apply (proj1 (proj2 (proj2 (proj2 (proj2
             (getDataType_primitive_table SampleHost.stringify
                (Property.mk (Some "boolean") None None None false) None))))));
      reflexivity.
  - apply (proj2 (proj2 (proj2 (proj2 (proj2
             (getDataType_primitive_table SampleHost.stringify
                (Property.mk (Some "object") None None None true) None)))))).
    right; reflexivity.
Defined.

Lemma getDataType_array_composes_witness :
  Property.isArray (Property.mk None None (Some "Foo") None true) = true
  /\ getDataType SampleHost.stringify
                 (Property.mk None None (Some "Foo") None false) (Some "Models")
     = Ok "Models.Foo"
  /\ getDataType SampleHost.stringify
                 (Property.mk None None (Some "Foo") None true) (Some "Models")
     = Ok "Models.Foo[]".
Proof.
  split; [reflexivity|]. split; [reflexivity|].
  apply (proj1 (getDataType_array_composes SampleHost.stringify
                  (Property.mk None None (Some "Foo") None true) (Some "Models")
                  eq_refl) "Models.Foo").
  reflexivity.
Defined.

Lemma getDataType_precedence_witness :
  getDataType SampleHost.stringify
              (Property.mk (Some "integer") None (Some "Foo") (Some "Bar") false)
              (Some "Models")
  = Ok "number"
  /\ getDataType SampleHost.stringify
                 (Property.mk None None (Some "Foo") (Some "Bar") false)
                 (Some "Models")
     = Ok "Models.Foo"
  /\ getDataType SampleHost.stringify
                 (Property.mk None None (Some "") (Some "Bar") true) None
     = Ok "Bar[]".
Proof.
  split; [|split].
  - exact (proj1 (getDataType_precedence SampleHost.stringify
                    (Property.mk (Some "integer") None (Some "Foo") (Some "Bar") false)
                    (Some "Models")) eq_refl).
  - exact (proj1 (proj2 (getDataType_precedence SampleHost.stringify
                           (Property.mk None None (Some "Foo") (Some "Bar") false)
                           (Some "Models"))) "Foo" eq_refl eq_refl).
  - exact (proj2 (proj2 (getDataType_precedence SampleHost.stringify
                           (Property.mk None None (Some "") (Some "Bar") true)
                           None)) "Bar" eq_refl eq_refl eq_refl).
Defined.

Lemma getDataType_failure_witness :
  getDataType SampleHost.stringify (Property.mk None None None None false) None
  = Throw ("Cannot understand type of property in definition: "
           +++ SampleHost.stringify (Property.mk None None None None false))
  /\ getDataType SampleHost.stringify
                 (Property.mk (Some "float") None None None false) None
     = Throw ("Cannot translate primitive type "
              +++ SampleHost.stringify (Property.mk (Some "float") None None None false))
  /\ exists typeName,
      getDataType SampleHost.stringify
                  (Property.mk None None None (Some "Colour") true) None
      = Ok typeName.
Proof.
  split; [|split].
  - apply (proj1 (getDataType_failure SampleHost.stringify
                    (Property.mk None None None None false) None)).
    left. split; reflexivity.
  - apply (proj1 (getDataType_failure SampleHost.stringify
                    (Property.mk (Some "float") None None None false) None)).
    right. repeat split; reflexivity.
  - apply (proj2 (getDataType_failure SampleHost.stringify
                    (Property.mk None None None (Some "Colour") true) None)).
    reflexivity.
Defined.

Lemma buildOperationDocComments_wrapping_witness :
  buildOperationDocComments SampleHost.stringify (Operation.mk None None None None)
  = Ok []
  /\ buildOperationDocComments SampleHost.stringify
       (Operation.mk (Some "Lists the users") None
          (Some [OperationParameter.mk "id" None
                   (Property.mk None None None None false)])
          None)
     = Ok ["/**"; " * Lists the users"; " */"].
Proof.
  split.
  - apply (proj1 (buildOperationDocComments_wrapping SampleHost.stringify
                    (Operation.mk None None None None))).
    reflexivity.
  - apply (proj2 (proj2 (buildOperationDocComments_wrapping SampleHost.stringify
                           (Operation.mk (Some "Lists the users") None
                              (Some [OperationParameter.mk "id" None
                                       (Property.mk None None None None false)])
                              None)))); reflexivity.
Defined.

Lemma buildOperationDocComments_described_only_witness :
  exists lines,
    buildOperationDocComments SampleHost.stringify
      (Operation.mk None None
         (Some [OperationParameter.mk "raw" None
                  (Property.mk None None None None false);
                OperationParameter.mk "id" (Some "User identifier")
                  (Property.mk (Some "integer") None None None false)])
         None)
    = Ok lines.
Proof.
  apply (proj2 (buildOperationDocComments_described_only SampleHost.stringify
                  (Operation.mk None None
                     (Some [OperationParameter.mk "raw" None
                              (Property.mk None None None None false);
                            OperationParameter.mk "id" (Some "User identifier")
                              (Property.mk (Some "integer") None None None false)])
                     None))).
  intros param [<- | [<- | []]] Hdescribed.
  - discriminate Hdescribed.
  - reflexivity.
Defined.

(** C1, as stated, fails.  The keys 404, 201 and 200 are created in this
    order, so the first response in the order of insertion whose key is a
    success status and which declares a data type is the one under 201;
    the return type is resolved from the response under 200. *)
Lemma getReturnType_not_insertion_order :
  map fst (Responses.own descendingResponses) = ["404"] ++ "201" :: ["200"]
  /\ Response.dataType (Responses.get descendingResponses "404") = None
  /\ qualifies SampleHost.toNumber descendingResponses "201" createdType
  /\ getDataType SampleHost.stringify createdType None = Ok "Created"
  /\ getReturnType SampleHost.stringify SampleHost.toNumber descendingOperation
                   (ReturnTypeOptions.mk None None)
     = Ok "Found"
  /\ getReturnType SampleHost.stringify SampleHost.toNumber descendingOperation
                   (ReturnTypeOptions.mk None None)
     <> getDataType SampleHost.stringify createdType None.
Proof.
  split; [reflexivity|]. split; [reflexivity|]. split.
  - split; [reflexivity|]. split; [|reflexivity].
    exists (inject_Z 201). split; [reflexivity|].
    split; [unfold Qle; simpl; lia | unfold Qlt; simpl; lia].
  - split; [reflexivity|]. split; [reflexivity | discriminate].
Qed.

Lemma getReturnType_first_success_witness :
  getReturnType SampleHost.stringify SampleHost.toNumber
    (Operation.mk None None None None) (ReturnTypeOptions.mk None (Some "any"))
  = Ok "any"
  /\ getReturnType SampleHost.stringify SampleHost.toNumber
       (Operation.mk None None None
          (Some (Responses.literal
                   [("200", Response.mk None);
                    ("201", Response.mk
                              (Some (Property.mk None None (Some "User") None false)));
                    ("404", Response.mk None)])))
       (ReturnTypeOptions.mk (Some "Models") None)
     = Ok "Models.User"
  /\ getReturnType SampleHost.stringify SampleHost.toNumber
       (Operation.mk None None None
          (Some (Responses.literal [("404", Response.mk None)])))
       (ReturnTypeOptions.mk None None)
     = Ok "void"
  /\ getReturnType SampleHost.stringify SampleHost.toNumber descendingOperation
                   (ReturnTypeOptions.mk (Some "Models") None)
     = Ok "Models.Found"
  /\ getReturnType SampleHost.stringify SampleHost.toNumber
                   (Operation.mk None None None (Some paddedResponses))
                   (ReturnTypeOptions.mk None None)
     = Ok "Created".
Proof.
  split; [|split; [|split; [|split]]].
  - apply (proj1 (getReturnType_first_success SampleHost.stringify SampleHost.toNumber
                    (Operation.mk None None None None)
                    (ReturnTypeOptions.mk None (Some "any")))).
    reflexivity.
  - apply (proj1 (proj2 (getReturnType_first_success SampleHost.stringify
                           SampleHost.toNumber
                           (Operation.mk None None None
                              (Some (Responses.literal
                                       [("200", Response.mk None);
                                        ("201", Response.mk
                                                  (Some (Property.mk None None
                                                           (Some "User") None false)));
                                        ("404", Response.mk None)])))
                           (ReturnTypeOptions.mk (Some "Models") None)))
             _ ["200"] "201" ["404"]
             (Property.mk None None (Some "User") None false)
             eq_refl eq_refl).
    + intros earlier other [<- | []] (_ & _ & Hdeclared). discriminate Hdeclared.
    + split; [reflexivity|]. split; [|reflexivity].
      exists (inject_Z 201). split; [reflexivity|].
      split; [unfold Qle; simpl; lia | unfold Qlt; simpl; lia].
  - apply (proj1 (proj2 (proj2 (getReturnType_first_success SampleHost.stringify
                                  SampleHost.toNumber
                                  (Operation.mk None None None
                                     (Some (Responses.literal
                                              [("404", Response.mk None)])))
                                  (ReturnTypeOptions.mk None None))))
             _ eq_refl).
    intros statusKey dataType [<- | []] (_ & _ & Hdeclared). discriminate Hdeclared.
  - apply (proj1 (proj2 (proj2 (proj2 (proj2 (proj2
             (getReturnType_first_success SampleHost.stringify SampleHost.toNumber
                descendingOperation
                (ReturnTypeOptions.mk (Some "Models") None)))))))
             descendingResponses "200" 200%N foundType eq_refl).
    + right. right. left. reflexivity.
    + reflexivity.
    + split; [reflexivity|]. split; [|reflexivity].
      exists (inject_Z 200). split; [reflexivity|].
      split; [unfold Qle; simpl; lia | unfold Qlt; simpl; lia].
    + intros smallerKey smaller other [<- | [<- | [<- | []]]] Hindex Hless;
        vm_compute in Hindex; inversion Hindex; subst smaller; lia.
  - apply (proj1 (proj2 (proj2 (proj2 (proj2 (proj2 (proj2
             (getReturnType_first_success SampleHost.stringify SampleHost.toNumber
                (Operation.mk None None None (Some paddedResponses))
                (ReturnTypeOptions.mk None None))))))))
             paddedResponses [] "0201" ["0200"] createdType eq_refl eq_refl).
    + intros indexKey index other [<- | [<- | []]] Hindex;
        vm_compute in Hindex; discriminate Hindex.
    + intros earlier other [].
    + split; [reflexivity|]. split; [|reflexivity].
      exists (inject_Z 201). split; [reflexivity|].
      split; [unfold Qle; simpl; lia | unfold Qlt; simpl; lia].
Defined.

Lemma getMethodSignature_composition_witness :
  SampleHost.toNumber "200" = Finite 200
  /\ getMethodSignature SampleHost.stringify SampleHost.toNumber "getUser"
                        getUserOperation getUserOptions
     = Ok "getUser(id: number): Models.User".
Proof.
  split; [reflexivity|].
  apply (proj2 (proj2 (getMethodSignature_composition SampleHost.stringify SampleHost.toNumber
                         "getUser" getUserOperation getUserOptions))).
  reflexivity.
Defined.

Lemma getMethodSignature_transformer_frame_witness :
  exists parameters returnType,
    signatureParameters SampleHost.stringify getUserOperation getUserOptions = Ok parameters
    /\ getReturnType SampleHost.stringify SampleHost.toNumber getUserOperation
                     (ReturnTypeOptions.mk (Some "Models") None)
       = Ok returnType
    /\ "getUser(id: number): Models.User"
       = "getUser" +++ "(" +++ parameters +++ "): " +++ returnType
    /\ getMethodSignature SampleHost.stringify SampleHost.toNumber "getUser" getUserOperation
         (MethodSignatureOptions.mk (ReturnTypeOptions.mk (Some "Models") None)
            (Some (fun t => "Promise<" +++ t +++ ">")))
       = Ok ("getUser" +++ "(" +++ parameters +++ "): "
             +++ "Promise<" +++ returnType +++ ">").
Proof.
  apply (proj1 (proj2 (getMethodSignature_transformer_frame SampleHost.stringify
                         SampleHost.toNumber "getUser" getUserOperation
                         (ReturnTypeOptions.mk (Some "Models") None)
                         (fun t => "Promise<" +++ t +++ ">")))
           "getUser(id: number): Models.User").
  reflexivity.
Defined.

(** ** Further evaluations of the code *)

Example buildHeader_full :
  buildHeader (Profile.mk "X" (Some "prod"))
    (Some (ApiDefinition.mk
             (Some (Metadata.mk (Some "Pets") None (Some "http://h/api")))))
  = [ border;
      "// <auto-generated>";
      "//     Generated using the Swagen tool";
      "//     Generator: X";
      "//     Mode: prod";
      "// </auto-generated>";
      border;
      "// Pets";
      "// Base URL: http://h/api" ].
Proof. reflexivity. Qed.

Example buildOperationDocComments_param :
  buildOperationDocComments SampleHost.stringify
    (Operation.mk (Some "Finds a user") (Some "By identifier")
       (Some [OperationParameter.mk "id" (Some "User identifier")
                (Property.mk (Some "integer") None None None false);
              OperationParameter.mk "trace" (Some "")
                (Property.mk None None None None false);
              OperationParameter.mk "tags" (Some "Labels")
                (Property.mk None None (Some "Tag") None true)])
       None)
  = Ok [ "/**";
         " * Finds a user";
         " * By identifier";
         " * @param {number} id - User identifier";
         " * @param {Tag[]} tags - Labels";
         " */" ].
Proof. reflexivity. Qed.

Example getMethodSignature_two_parameters :
  getMethodSignature SampleHost.stringify SampleHost.toNumber "find"
    (Operation.mk None None
       (Some [OperationParameter.mk "id" None
                (Property.mk (Some "string") (Some "uuid") None None false);
              OperationParameter.mk "when" None
                (Property.mk (Some "string") (Some "date-time") None None true)])
       (Some (Responses.literal
                [("200", Response.mk
                           (Some (Property.mk None None None (Some "Kind") true)));
                 ("default", Response.mk None)])))
    (MethodSignatureOptions.mk (ReturnTypeOptions.mk (Some "M") None)
       (Some (fun t => "Promise<" +++ t +++ ">")))
  = Ok "find(id: string, when: Date[]): Promise<M.Kind[]>".
Proof. reflexivity. Qed.

Example getMethodSignature_throws :
  getMethodSignature SampleHost.stringify SampleHost.toNumber "find"
    (Operation.mk None None
       (Some [OperationParameter.mk "id" None
                (Property.mk None None None None false)])
       None)
    getUserOptions
  = Throw ("Cannot understand type of property in definition: "
           +++ SampleHost.stringify (Property.mk None None None None false)).
Proof. reflexivity. Qed.

(** ** Further properties of the header *)

Lemma prefix_append (a b : string) : String.prefix a (a +++ b) = true.
Proof.
  induction a as [|ch a IH]; simpl.
  - destruct b; reflexivity.
  - destruct (ascii_dec ch ch) as [_|Hne]; [exact IH | congruence].
Qed.

Lemma Forall_push (A : Type) (P : A -> Prop) (a xs : list A) :
  Forall P a -> Forall P xs -> Forall P (push a xs).
Proof.
  intros Ha Hxs. unfold push. apply Forall_app. split; assumption.
Qed.

(** X1.  Every line of a header is a line comment: it starts with two
    slashes, whatever the profile and the definition hold. *)
Theorem buildHeader_comment_lines :
  forall (profile : Profile.t) (definition : option ApiDefinition.t),
    Forall (fun line => String.prefix "//" line = true)
           (buildHeader profile definition).
Proof.
  intros profile definition. unfold buildHeader.
  destruct definition as [[[metadata|]]|]; unfold ApiDefinition.metadata;
    repeat match goal with
           | |- Forall _ (if ?c then _ else _) => destruct c
           | |- Forall _ (push _ _) => apply Forall_push
           end;
    repeat constructor.
Qed.

(** X2.  The definition never changes the comment block: the header is the
    header of the same profile without definition, which has six lines or
    seven with a mode, followed by at most three lines; nothing follows
    when the definition has no metadata or when every metadata field is
    absent or empty. *)
Theorem buildHeader_definition_frame :
  forall (profile : Profile.t) (definition : option ApiDefinition.t),
    List.length (buildHeader profile None)
    = (if truthy (Profile.mode profile) then 7 else 6)%nat
    /\ (exists extra,
           buildHeader profile definition = buildHeader profile None ++ extra
           /\ (List.length extra <= 3)%nat)
    /\ (forall d,
           definition = Some d ->
           ApiDefinition.metadata d = None ->
           buildHeader profile definition = buildHeader profile None)
    /\ (forall d metadata,
           definition = Some d ->
           ApiDefinition.metadata d = Some metadata ->
           truthy (Metadata.title metadata) = false ->
           truthy (Metadata.description metadata) = false ->
           truthy (Metadata.baseUrl metadata) = false ->
           buildHeader profile definition = buildHeader profile None).
Proof.
  intros profile definition. split; [|split; [|split]].
  - unfold buildHeader. destruct (truthy (Profile.mode profile)); reflexivity.
  - destruct definition as [[[metadata|]]|];
      [ | exists []; split; [now rewrite app_nil_r | simpl; lia] .. ].
    exists ((if truthy (Metadata.title metadata)
             then ["// " +++ template (Metadata.title metadata)] else [])
            ++ (if truthy (Metadata.description metadata)
                then ["// " +++ template (Metadata.description metadata)] else [])
            ++ (if truthy (Metadata.baseUrl metadata)
                then ["// Base URL: " +++ template (Metadata.baseUrl metadata)]
                else [])).
    split.
    + unfold buildHeader, ApiDefinition.metadata, push.
      destruct (truthy (Metadata.title metadata)),
        (truthy (Metadata.description metadata)),
        (truthy (Metadata.baseUrl metadata));
        simpl app; rewrite ?app_nil_r, <- ?app_assoc; reflexivity.
    + destruct (truthy (Metadata.title metadata)),
        (truthy (Metadata.description metadata)),
        (truthy (Metadata.baseUrl metadata)); simpl; lia.
  - intros d -> Hnone. unfold buildHeader. rewrite Hnone. reflexivity.
  - intros d metadata -> Hsome Ht Hd Hb. unfold buildHeader.
    rewrite Hsome, Ht, Hd, Hb. reflexivity.
Qed.

Lemma buildHeader_definition_frame_witness :
  buildHeader (Profile.mk "X" (Some "prod"))
              (Some (ApiDefinition.mk (Some (Metadata.mk (Some "") None (Some "")))))
  = buildHeader (Profile.mk "X" (Some "prod")) None.
Proof.
  apply (proj2 (proj2 (proj2
           (buildHeader_definition_frame (Profile.mk "X" (Some "prod"))
              (Some (ApiDefinition.mk
                       (Some (Metadata.mk (Some "") None (Some ""))))))))
           (ApiDefinition.mk (Some (Metadata.mk (Some "") None (Some ""))))
           (Metadata.mk (Some "") None (Some "")));
    reflexivity.
Defined.

(** ** Further properties of the type resolver *)

Section TypeResolverMore.

Variable JSON_stringify : Property.t -> string.

Lemma getDataType_throw_any_namespace (p : Property.t) (ns ns' : option string)
      (message : string) :
  getDataType JSON_stringify p ns = Throw message ->
  getDataType JSON_stringify p ns' = Throw message.
Proof.
  unfold getDataType.
  destruct (truthy (Property.primitive p)); [exact (fun H => H)|].
  destruct (truthy (Property.complex p)); [discriminate|].
  destruct (truthy (Property.enum p)); [discriminate|].
  exact (fun H => H).
Qed.

Lemma getDataType_returns_any_namespace (p : Property.t) (ns ns' : option string) :
  (exists typeName, getDataType JSON_stringify p ns = Ok typeName) ->
  exists typeName, getDataType JSON_stringify p ns' = Ok typeName.
Proof.
  intros [t Ht].
  destruct (getDataType JSON_stringify p ns') as [t'|m] eqn:E; [eauto|].
  apply getDataType_throw_any_namespace with (ns' := ns) in E. congruence.
Qed.

(** X3.  The namespace has no part in failures: a property that does not
    resolve in one namespace resolves in none, with the same message.  An
    empty namespace is no namespace, and a property whose primitive is set
    resolves to the same name in every namespace. *)
Theorem getDataType_namespace_independence :
  forall (p : Property.t) (ns ns' : option string),
    (forall message,
        getDataType JSON_stringify p ns = Throw message <->
        getDataType JSON_stringify p ns' = Throw message)
    /\ getDataType JSON_stringify p (Some "") = getDataType JSON_stringify p None
    /\ (truthy (Property.primitive p) = true ->
        getDataType JSON_stringify p ns = getDataType JSON_stringify p ns').
Proof.
  intros p ns ns'. split; [|split].
  - intros message. split; apply getDataType_throw_any_namespace.
  - reflexivity.
  - intros Hp. unfold getDataType. rewrite Hp. reflexivity.
Qed.

Lemma getPrimitiveTypeName_range (p : Property.t) (typeName : string) :
  getPrimitiveTypeName JSON_stringify p = Ok typeName ->
  In typeName primitiveNames.
Proof.
  unfold getPrimitiveTypeName, primitiveNames.
  repeat match goal with
         | |- context [if ?c then _ else _] => destruct c
         end;
    intros H; inversion H; simpl; auto 10.
Qed.

Lemma nonEmpty_append_l (a b : string) :
  nonEmpty a = true -> nonEmpty (a +++ b) = true.
Proof.
  destruct a; [discriminate | reflexivity].
Qed.

Lemma nonEmpty_suffixed (p : Property.t) (typeName : string) :
  nonEmpty typeName = true -> nonEmpty (suffixed p typeName) = true.
Proof.
  intros H. unfold suffixed, arrayOf.
  destruct (Property.isArray p); [now apply nonEmpty_append_l | exact H].
Qed.

Lemma nonEmpty_prefixNamespace (name : string) (ns : option string) :
  nonEmpty name = true -> nonEmpty (prefixNamespace name ns) = true.
Proof.
  intros H. unfold prefixNamespace.
  destruct (truthy ns); [|exact H].
  apply nonEmpty_append_r. reflexivity.
Qed.

Lemma getDataType_result_nonEmpty (p : Property.t) (ns : option string)
      (typeName : string) :
  getDataType JSON_stringify p ns = Ok typeName ->
  nonEmpty typeName = true.
Proof.
  intros H.
  destruct (truthy (Property.primitive p)) eqn:Hp.
  - rewrite (getDataType_primitive_branch JSON_stringify p ns Hp) in H.
    destruct (getPrimitiveTypeName JSON_stringify p) as [base|m] eqn:E;
      simpl in H; [|discriminate H].
    inversion H. apply nonEmpty_suffixed.
    apply getPrimitiveTypeName_range in E. unfold primitiveNames in E.
    simpl in E. intuition (subst; reflexivity).
  - destruct (truthy (Property.complex p)) eqn:Hc.
    + rewrite (getDataType_complex_branch JSON_stringify p ns Hp Hc) in H.
      inversion H. apply nonEmpty_suffixed, nonEmpty_prefixNamespace.
      destruct (Property.complex p); [exact Hc | discriminate Hc].
    + destruct (truthy (Property.enum p)) eqn:He.
      * rewrite (getDataType_enum_branch JSON_stringify p ns Hp Hc He) in H.
        inversion H. apply nonEmpty_suffixed, nonEmpty_prefixNamespace.
        destruct (Property.enum p); [exact He | discriminate He].
      * assert (Hk : kindsSet p = 0%nat)
          by (unfold kindsSet; rewrite Hp, Hc, He; reflexivity).
        rewrite (getDataType_no_kind JSON_stringify p ns Hk) in H.
        discriminate H.
Qed.

(** X4.  A type name returned by [getDataType] is never the empty string:
    the names of the primitive table are not empty, a complex or enum name
    is used only when it is not empty, and the prefix and the suffix only
    add characters. *)
Theorem getDataType_nonEmpty :
  forall (p : Property.t) (ns : option string) (typeName : string),
    getDataType JSON_stringify p ns = Ok typeName ->
    nonEmpty typeName = true.
Proof.
  intros p ns typeName. apply getDataType_result_nonEmpty.
Qed.

(** X5.  When [primitive] is set, a returned name is one of [number],
    [Date], [string], [boolean], [any], followed by the array suffix for an
    array, whatever [complex], [enum] and the namespace hold.  A string
    primitive never throws: any subType other than date-time and byte,
    known or not, gives [string]. *)
Theorem getDataType_primitive_range :
  forall (p : Property.t) (ns : option string),
    (forall typeName,
        truthy (Property.primitive p) = true ->
        getDataType JSON_stringify p ns = Ok typeName ->
        exists base, In base primitiveNames /\ typeName = suffixed p base)
    /\ (Property.primitive p = Some "string" ->
        Property.subType p <> Some "date-time" ->
        Property.subType p <> Some "byte" ->
        getDataType JSON_stringify p ns = Ok (suffixed p "string")).
Proof.
  intros p ns. split.
  - intros typeName Hp H.
    rewrite (getDataType_primitive_branch JSON_stringify p ns Hp) in H.
    destruct (getPrimitiveTypeName JSON_stringify p) as [base|m] eqn:E;
      simpl in H; [|discriminate H].
    inversion H. exists base. split; [|reflexivity].
    now apply getPrimitiveTypeName_range in E.
  - intros Hprim Hdate Hbyte.
    rewrite (getDataType_primitive_branch JSON_stringify p ns)
      by (rewrite Hprim; reflexivity).
    unfold getPrimitiveTypeName. rewrite Hprim. simpl.
    assert (Hd : strictEq (Property.subType p) "date-time" = false).
    { destruct (Property.subType p) as [s|]; [|reflexivity]. simpl.
      apply String.eqb_neq. congruence. }
    assert (Hb : strictEq (Property.subType p) "byte" = false).
    { destruct (Property.subType p) as [s|]; [|reflexivity]. simpl.
      apply String.eqb_neq. congruence. }
    rewrite Hd, Hb.
    destruct (strictEq (Property.subType p) "uuid"); reflexivity.
Qed.

Lemma String_length_append (a b : string) :
  String.length (a +++ b) = (String.length a + String.length b)%nat.
Proof.
  induction a as [|ch a IH]; simpl; [reflexivity | now rewrite IH].
Qed.

Lemma append_cancel_l (a b c : string) : a +++ b = a +++ c -> b = c.
Proof.
  induction a as [|ch a IH]; simpl; intros H; [exact H|].
  inversion H. auto.
Qed.

Lemma append_cancel_r (a b c : string) : a +++ c = b +++ c -> a = b.
Proof.
  revert b. induction a as [|ch a IH]; intros [|ch' b] H; simpl in H.
  - reflexivity.
  - apply (f_equal String.length) in H. simpl in H.
    rewrite String_length_append in H. lia.
  - apply (f_equal String.length) in H. simpl in H.
    rewrite String_length_append in H. lia.
  - inversion H. f_equal. auto.
Qed.

Lemma getDataType_named (p : Property.t) (ns : option string) (typeName : string) :
  truthy (Property.primitive p) = false ->
  getDataType JSON_stringify p ns = Ok typeName ->
  exists name,
    namedType p = Some name /\ typeName = suffixed p (prefixNamespace name ns).
Proof.
  intros Hp H. unfold namedType.
  destruct (truthy (Property.complex p)) eqn:Hc.
  - rewrite (getDataType_complex_branch JSON_stringify p ns Hp Hc) in H.
    rewrite (truthy_present _ Hc). inversion H. eauto.
  - rewrite (falsy_present _ Hc).
    destruct (truthy (Property.enum p)) eqn:He.
    + rewrite (getDataType_enum_branch JSON_stringify p ns Hp Hc He) in H.
      rewrite (truthy_present _ He). inversion H. eauto.
    + assert (Hk : kindsSet p = 0%nat)
        by (unfold kindsSet; rewrite Hp, Hc, He; reflexivity).
      rewrite (getDataType_no_kind JSON_stringify p ns Hk) in H. discriminate H.
Qed.

(** X6.  Named types do not collide: two properties without primitive and
    with the same array flag that resolve to the same type name in the
    same namespace refer to the same complex or enum name. *)
Theorem getDataType_named_injective :
  forall (p q : Property.t) (ns : option string) (typeName : string),
    truthy (Property.primitive p) = false ->
    truthy (Property.primitive q) = false ->
    Property.isArray p = Property.isArray q ->
    getDataType JSON_stringify p ns = Ok typeName ->
    getDataType JSON_stringify q ns = Ok typeName ->
    namedType p = namedType q.
Proof.
  intros p q ns typeName Hp Hq Harr Hrp Hrq.
  destruct (getDataType_named p ns Hp Hrp) as [a [Ha Hta]].
  destruct (getDataType_named q ns Hq Hrq) as [b [Hb Htb]].
  rewrite Ha, Hb. f_equal.
  rewrite Hta in Htb. unfold suffixed, arrayOf in Htb. rewrite Harr in Htb.
  assert (Hpre : prefixNamespace a ns = prefixNamespace b ns).
  { destruct (Property.isArray q); [|exact Htb].
    now apply append_cancel_r in Htb. }
  unfold prefixNamespace in Hpre.
  destruct (truthy ns); [|exact Hpre].
  apply append_cancel_l in Hpre. now apply append_cancel_l in Hpre.
Qed.

End TypeResolverMore.

(** ** Further properties of the documentation comments *)

Section DocCommentsMore.

Variable JSON_stringify : Property.t -> string.

Lemma paramDocLines_cons (param : OperationParameter.t)
      (rest : list OperationParameter.t) (typeName : string) (types : list string) :
  paramDocLines (param :: rest) (typeName :: types) =
    paramDocLine param typeName :: paramDocLines rest types.
Proof. reflexivity. Qed.

Lemma documentParams_exact (params : list OperationParameter.t) :
  forall types comments,
    Forall2 (paramResolvesTo JSON_stringify None) params types ->
    documentParams JSON_stringify comments params =
      Ok (comments ++ paramDocLines params types).
Proof.
  induction params as [|param rest IH]; intros types comments Hall;
    inversion Hall as [|? typeName ? types' Hhead Htail]; subst.
  - simpl. now rewrite app_nil_r.
  - simpl documentParams. unfold paramResolvesTo in Hhead. rewrite Hhead.
    simpl bind. rewrite (IH types' _ Htail), paramDocLines_cons.
    unfold push, paramDocLine. now rewrite <- app_assoc.
Qed.

Lemma documentParams_types (params : list OperationParameter.t) :
  forall comments lines,
    documentParams JSON_stringify comments params = Ok lines ->
    exists types, Forall2 (paramResolvesTo JSON_stringify None) params types.
Proof.
  induction params as [|param rest IH]; intros comments lines H.
  - exists []. constructor.
  - simpl in H.
    destruct (getDataType JSON_stringify (OperationParameter.dataType param) None)
      as [typeName|m] eqn:E; simpl in H; [|discriminate H].
    destruct (IH _ _ H) as [types Htypes].
    exists (typeName :: types). constructor; assumption.
Qed.

Lemma documentParams_throw (before : list OperationParameter.t) :
  forall param after comments message,
    Forall (paramResolves JSON_stringify None) before ->
    getDataType JSON_stringify (OperationParameter.dataType param) None
    = Throw message ->
    documentParams JSON_stringify comments (before ++ param :: after)
    = Throw message.
Proof.
  induction before as [|first before IH]; intros param after comments message Hall Hp.
  - simpl. rewrite Hp. reflexivity.
  - inversion Hall as [|? ? [typeName Hfirst] Hrest]; subst.
    simpl. unfold paramResolvesTo in Hfirst. rewrite Hfirst. simpl.
    now apply IH.
Qed.

Lemma documentParams_throw_inv (params : list OperationParameter.t) :
  forall comments message,
    documentParams JSON_stringify comments params = Throw message ->
    exists before param after,
      params = before ++ param :: after
      /\ Forall (paramResolves JSON_stringify None) before
      /\ getDataType JSON_stringify (OperationParameter.dataType param) None
         = Throw message.
Proof.
  induction params as [|first rest IH]; intros comments message H;
    [discriminate H|].
  simpl in H.
  destruct (getDataType JSON_stringify (OperationParameter.dataType first) None)
    as [typeName|m] eqn:E; simpl in H.
  - destruct (IH _ _ H) as (before & param & after & -> & Hall & Hp).
    exists (first :: before), param, after. repeat split; try assumption.
    constructor; [exists typeName; exact E | exact Hall].
  - inversion H; subst. exists [], first, rest. repeat split; [constructor | exact E].
Qed.

Lemma docBlock_test (comments : list string) :
  (if (0 <? List.length comments)%nat
   then "/**" :: comments ++ [" */"]
   else comments) = docBlock comments.
Proof.
  destruct comments; reflexivity.
Qed.

(** X7.  The lines of a documentation comment.  When the data types of
    the described parameters resolve (without namespace) to [types], the
    result is the block of the description lines followed, for each
    described parameter in the order of the operation, by the line
    [ * @param {type} name - description]; and every result is of that
    form. *)
Theorem buildOperationDocComments_lines :
  forall operation : Operation.t,
    (forall types,
        Forall2 (paramResolvesTo JSON_stringify None)
                (describedParams operation) types ->
        buildOperationDocComments JSON_stringify operation =
          Ok (docBlock (descriptionLines operation
                        ++ paramDocLines (describedParams operation) types)))
    /\ (forall lines,
           buildOperationDocComments JSON_stringify operation = Ok lines ->
           exists types,
             Forall2 (paramResolvesTo JSON_stringify None)
                     (describedParams operation) types
             /\ lines = docBlock (descriptionLines operation
                                  ++ paramDocLines (describedParams operation) types)).
Proof.
  intros operation.
  assert (Hforward : forall types,
        Forall2 (paramResolvesTo JSON_stringify None)
                (describedParams operation) types ->
        buildOperationDocComments JSON_stringify operation =
          Ok (docBlock (descriptionLines operation
                        ++ paramDocLines (describedParams operation) types))).
  { intros types Hall. rewrite buildOperationDocComments_unfold.
    rewrite (documentParams_exact _ Hall). simpl bind.
    now rewrite docBlock_test. }
  split; [exact Hforward|].
  intros lines H.
  assert (Htypes : exists types,
             Forall2 (paramResolvesTo JSON_stringify None)
                     (describedParams operation) types).
  { rewrite buildOperationDocComments_unfold in H.
    destruct (documentParams JSON_stringify (descriptionLines operation)
                             (describedParams operation)) as [comments|m] eqn:E;
      [|discriminate H].
    exact (documentParams_types _ _ E). }
  destruct Htypes as [types Hall]. exists types. split; [exact Hall|].
  rewrite (Hforward types Hall) in H. now inversion H.
Qed.

(** X8.  [buildOperationDocComments] throws exactly when the data type of
    some described parameter does not resolve, and the message is the one
    of the first such parameter in the order of the operation; the
    descriptions of the operation are then lost with the rest. *)
Theorem buildOperationDocComments_first_error :
  forall (operation : Operation.t) (message : string),
    buildOperationDocComments JSON_stringify operation = Throw message <->
    exists before param after,
      describedParams operation = before ++ param :: after
      /\ Forall (paramResolves JSON_stringify None) before
      /\ getDataType JSON_stringify (OperationParameter.dataType param) None
         = Throw message.
Proof.
  intros operation message. rewrite buildOperationDocComments_unfold. split.
  - intros H.
    destruct (documentParams JSON_stringify (descriptionLines operation)
                             (describedParams operation)) as [comments|m] eqn:E;
      simpl in H; [discriminate H|].
    inversion H; subst. exact (documentParams_throw_inv _ _ E).
  - intros (before & param & after & -> & Hall & Hp).
    now rewrite (@documentParams_throw before param after
                   (descriptionLines operation) message Hall Hp).
Qed.

Lemma paramDocLines_prefix (params : list OperationParameter.t) :
  forall types,
    Forall (fun line => String.prefix " * " line = true)
           (paramDocLines params types).
Proof.
  induction params as [|param rest IH]; intros [|typeName types];
    try (constructor; fail).
  rewrite paramDocLines_cons. constructor; [reflexivity | apply IH].
Qed.

Lemma descriptionLines_prefix (operation : Operation.t) :
  Forall (fun line => String.prefix " * " line = true)
         (descriptionLines operation).
Proof.
  unfold descriptionLines. apply Forall_app. split.
  - destruct (truthy (Operation.description operation)); constructor;
      [apply prefix_append | constructor].
  - destruct (truthy (Operation.description2 operation)); constructor;
      [apply prefix_append | constructor].
Qed.

(** X9.  A documentation comment is never a lone or an empty wrapper: a
    result is either empty or has at least three lines, the first being
    the opening line, the last the closing line, and every line between
    them starting with a space, a star and a space. *)
Theorem buildOperationDocComments_block_shape :
  forall (operation : Operation.t) (lines : list string),
    buildOperationDocComments JSON_stringify operation = Ok lines ->
    lines = []
    \/ exists body,
        lines = "/**" :: body ++ [" */"]
        /\ (3 <= List.length lines)%nat
        /\ Forall (fun line => String.prefix " * " line = true) body.
Proof.
  intros operation lines H.
  rewrite buildOperationDocComments_unfold in H.
  destruct (documentParams JSON_stringify (descriptionLines operation)
                           (describedParams operation)) as [comments|m] eqn:E;
    simpl in H; [|discriminate H].
  destruct (documentParams_types _ _ E) as [types Hall].
  rewrite (documentParams_exact (descriptionLines operation) Hall) in E.
  inversion E; subst comments. rewrite docBlock_test in H. inversion H.
  destruct (descriptionLines operation
            ++ paramDocLines (describedParams operation) types)
    as [|line body] eqn:Hbody; [left; reflexivity|].
  right. exists (line :: body). split; [reflexivity|]. split.
  - simpl. rewrite length_app. simpl. lia.
  - rewrite <- Hbody. apply Forall_app. split.
    + apply descriptionLines_prefix.
    + apply paramDocLines_prefix.
Qed.

End DocCommentsMore.

(** ** Further properties of return types and signatures *)

Section SignaturesMore.

Variable JSON_stringify : Property.t -> string.
Variable ToNumber : string -> number.

Lemma orElse_nonEmpty (v : option string) (d : string) :
  nonEmpty d = true -> nonEmpty (orElse v d) = true.
Proof.
  intros Hd. unfold orElse, present.
  destruct v as [s|]; [|exact Hd].
  destruct (nonEmpty s) eqn:E; [exact E | exact Hd].
Qed.

Lemma scanResponses_cases (responses : Responses.t) (options : ReturnTypeOptions.t)
      (keys : list string) :
  scanResponses JSON_stringify ToNumber responses options keys
  = Ok (orElse (ReturnTypeOptions.voidType options) "void")
  \/ exists statusKey dataType,
      In statusKey keys
      /\ qualifies ToNumber responses statusKey dataType
      /\ scanResponses JSON_stringify ToNumber responses options keys
         = getDataType JSON_stringify dataType (ReturnTypeOptions.modelsNs options).
Proof.
  induction keys as [|statusKey rest IH]; [left; reflexivity|].
  simpl.
  destruct (Responses.hasOwnProperty responses statusKey) eqn:Hown.
  - destruct (geq (ToNumber statusKey) 200 && lt (ToNumber statusKey) 300)
      eqn:Hrange.
    + destruct (Response.dataType (Responses.get responses statusKey))
        as [dataType|] eqn:Hdt.
      * right. exists statusKey, dataType. split; [now left|].
        split; [|reflexivity]. repeat split; try assumption.
        now apply successStatus_test.
      * destruct IH as [IH | (k & d & Hin & Hq & IH)];
          [left; exact IH | right; exists k, d; auto].
    + destruct IH as [IH | (k & d & Hin & Hq & IH)];
        [left; exact IH | right; exists k, d; auto].
  - destruct IH as [IH | (k & d & Hin & Hq & IH)];
      [left; exact IH | right; exists k, d; auto].
Qed.

Lemma getReturnType_cases (operation : Operation.t) (options : ReturnTypeOptions.t) :
  getReturnType JSON_stringify ToNumber operation options
  = Ok (orElse (ReturnTypeOptions.voidType options) "void")
  \/ exists responses statusKey dataType,
      Operation.responses operation = Some responses
      /\ In statusKey (Responses.forIn responses)
      /\ qualifies ToNumber responses statusKey dataType
      /\ getReturnType JSON_stringify ToNumber operation options
         = getDataType JSON_stringify dataType (ReturnTypeOptions.modelsNs options).
Proof.
  unfold getReturnType.
  destruct (Operation.responses operation) as [responses|]; [|left; reflexivity].
  destruct (scanResponses_cases responses options (Responses.forIn responses))
    as [H | (k & d & Hin & Hq & H)]; [left; exact H|].
  right. exists responses, k, d. auto.
Qed.

(** X10.  A return type is never the empty string: it is a resolved type
    name, or [options.voidType] when that is not empty, or [void]. *)
Theorem getReturnType_nonEmpty :
  forall (operation : Operation.t) (options : ReturnTypeOptions.t)
         (returnType : string),
    getReturnType JSON_stringify ToNumber operation options = Ok returnType ->
    nonEmpty returnType = true.
Proof.
  intros operation options returnType H.
  destruct (getReturnType_cases operation options)
    as [Hvoid | (rs & k & d & _ & _ & _ & Hd)].
  - rewrite Hvoid in H. inversion H. now apply orElse_nonEmpty.
  - rewrite Hd in H. exact (getDataType_result_nonEmpty JSON_stringify _ _ H).
Qed.

(** X11.  The only failures of [getReturnType] are those of resolving the
    data type of a response under an own key of success status: a thrown
    message comes from such a response, and the call returns when every
    such response has a well-formed data type, whatever the responses
    under other keys hold. *)
Theorem getReturnType_failures :
  forall (operation : Operation.t) (options : ReturnTypeOptions.t),
    (forall message,
        getReturnType JSON_stringify ToNumber operation options = Throw message ->
        exists responses statusKey dataType,
          Operation.responses operation = Some responses
          /\ In statusKey (Responses.forIn responses)
          /\ qualifies ToNumber responses statusKey dataType
          /\ getDataType JSON_stringify dataType
                         (ReturnTypeOptions.modelsNs options) = Throw message)
    /\ ((forall responses statusKey dataType,
            Operation.responses operation = Some responses ->
            In statusKey (Responses.forIn responses) ->
            qualifies ToNumber responses statusKey dataType ->
            wellFormed dataType = true) ->
        exists returnType,
          getReturnType JSON_stringify ToNumber operation options = Ok returnType).
Proof.
  intros operation options. split.
  - intros message H.
    destruct (getReturnType_cases operation options)
      as [Hvoid | (rs & k & d & Hrs & Hin & Hq & Hd)].
    + rewrite Hvoid in H. discriminate H.
    + exists rs, k, d. repeat split; try assumption; try apply Hq.
      now rewrite <- Hd.
  - intros Hwf.
    destruct (getReturnType_cases operation options)
      as [Hvoid | (rs & k & d & Hrs & Hin & Hq & Hd)].
    + eauto.
    + rewrite Hd. apply getDataType_returns. exact (Hwf rs k d Hrs Hin Hq).
Qed.

Lemma reduce_types (options : MethodSignatureOptions.t)
      (params : list OperationParameter.t) :
  forall accumulate parameters,
    reduce (appendParameter JSON_stringify options) params accumulate
    = Ok parameters ->
    exists types,
      Forall2 (paramResolvesTo JSON_stringify (ReturnTypeOptions.modelsNs options))
              params types.
Proof.
  induction params as [|param rest IH]; intros accumulate parameters H.
  - exists []. constructor.
  - simpl in H. unfold appendParameter at 1 in H.
    destruct (getDataType JSON_stringify (OperationParameter.dataType param)
                          (ReturnTypeOptions.modelsNs options))
      as [typeName|m] eqn:E; simpl in H; [|discriminate H].
    destruct (IH _ _ H) as [types Htypes].
    exists (typeName :: types). constructor; assumption.
Qed.

Lemma reduce_throw (options : MethodSignatureOptions.t)
      (before : list OperationParameter.t) :
  forall param after accumulate message,
    Forall (paramResolves JSON_stringify (ReturnTypeOptions.modelsNs options)) before ->
    getDataType JSON_stringify (OperationParameter.dataType param)
                (ReturnTypeOptions.modelsNs options) = Throw message ->
    reduce (appendParameter JSON_stringify options) (before ++ param :: after)
           accumulate
    = Throw message.
Proof.
  induction before as [|first before IH];
    intros param after accumulate message Hall Hp.
  - simpl. unfold appendParameter. rewrite Hp. reflexivity.
  - inversion Hall as [|? ? [typeName Hfirst] Hrest]; subst.
    simpl. unfold appendParameter at 1. unfold paramResolvesTo in Hfirst.
    rewrite Hfirst. simpl. now apply IH.
Qed.

Lemma reduce_throw_inv (options : MethodSignatureOptions.t)
      (params : list OperationParameter.t) :
  forall accumulate message,
    reduce (appendParameter JSON_stringify options) params accumulate
    = Throw message ->
    exists before param after,
      params = before ++ param :: after
      /\ Forall (paramResolves JSON_stringify (ReturnTypeOptions.modelsNs options))
                before
      /\ getDataType JSON_stringify (OperationParameter.dataType param)
                     (ReturnTypeOptions.modelsNs options) = Throw message.
Proof.
  induction params as [|first rest IH]; intros accumulate message H;
    [discriminate H|].
  simpl in H. unfold appendParameter at 1 in H.
  destruct (getDataType JSON_stringify (OperationParameter.dataType first)
                        (ReturnTypeOptions.modelsNs options))
    as [typeName|m] eqn:E; simpl in H.
  - destruct (IH _ _ H) as (before & param & after & -> & Hall & Hp).
    exists (first :: before), param, after. repeat split; try assumption.
    constructor; [exists typeName; exact E | exact Hall].
  - inversion H; subst. exists [], first, rest.
    repeat split; [constructor | exact E].
Qed.

Lemma Forall2_resolves (ns : option string) (params : list OperationParameter.t) :
  (exists types, Forall2 (paramResolvesTo JSON_stringify ns) params types) <->
  Forall (paramResolves JSON_stringify ns) params.
Proof.
  induction params as [|param rest IH].
  - split; [constructor | exists []; constructor].
  - split.
    + intros [types Hall].
      inversion Hall as [|? typeName ? types' Hhead Htail]; subst.
      constructor; [exists typeName; exact Hhead|].
      apply IH. eauto.
    + intros Hall. inversion Hall as [|? ? [typeName Hhead] Hrest]; subst.
      apply IH in Hrest. destruct Hrest as [types Htypes].
      exists (typeName :: types). constructor; assumption.
Qed.

(** X12.  [getMethodSignature] returns exactly when the data type of every
    parameter resolves in the namespace of the options and the return
    type resolves.  Otherwise it throws the message of the first
    parameter, in order, that does not resolve, whatever the responses
    and the transformer are; the failure of the return type shows only
    when all parameters resolve. *)
Theorem getMethodSignature_outcome :
  forall (operationName : string) (operation : Operation.t)
         (options : MethodSignatureOptions.t),
    let ns := ReturnTypeOptions.modelsNs options in
    let params := orEmpty (Operation.parameters operation) in
    ((exists signature,
         getMethodSignature JSON_stringify ToNumber operationName operation options
         = Ok signature) <->
     Forall (paramResolves JSON_stringify ns) params
     /\ exists returnType,
         getReturnType JSON_stringify ToNumber operation options = Ok returnType)
    /\ (forall before param after message,
           params = before ++ param :: after ->
           Forall (paramResolves JSON_stringify ns) before ->
           getDataType JSON_stringify (OperationParameter.dataType param) ns
           = Throw message ->
           getMethodSignature JSON_stringify ToNumber operationName operation options
           = Throw message)
    /\ (forall message,
           Forall (paramResolves JSON_stringify ns) params ->
           getReturnType JSON_stringify ToNumber operation options = Throw message ->
           getMethodSignature JSON_stringify ToNumber operationName operation options
           = Throw message).
Proof.
  intros operationName operation options ns params. subst ns params.
  split; [|split].
  - split.
    + intros [signature H]. unfold getMethodSignature in H.
      destruct (signatureParameters JSON_stringify operation options)
        as [parameters|m] eqn:E; simpl in H; [|discriminate H].
      destruct (getReturnType JSON_stringify ToNumber operation options)
        as [returnType|m] eqn:Er; simpl in H; [|discriminate H].
      split; [|eauto].
      apply Forall2_resolves. exact (reduce_types _ _ _ E).
    + intros [Hall [returnType Hret]].
      apply Forall2_resolves in Hall. destruct Hall as [types Htypes].
      unfold getMethodSignature.
      rewrite (signatureParameters_join JSON_stringify operation options Htypes).
      rewrite Hret. simpl. eauto.
  - intros before param after message Hsplit Hall Hp.
    unfold getMethodSignature, signatureParameters. rewrite Hsplit.
    now rewrite (@reduce_throw options before param after "" message Hall Hp).
  - intros message Hall Hret.
    apply Forall2_resolves in Hall. destruct Hall as [types Htypes].
    unfold getMethodSignature.
    rewrite (signatureParameters_join JSON_stringify operation options Htypes).
    rewrite Hret. reflexivity.
Qed.

Lemma documentParams_resolving (params : list OperationParameter.t) :
  Forall (paramResolves JSON_stringify None) params ->
  forall comments,
  exists lines, documentParams JSON_stringify comments params = Ok lines.
Proof.
  intros Hall comments. apply Forall2_resolves in Hall.
  destruct Hall as [types Htypes].
  rewrite (documentParams_exact comments Htypes). eauto.
Qed.

(** X13.  An operation that has a signature has documentation comments:
    whenever [getMethodSignature] returns, for any options,
    [buildOperationDocComments] returns for the same operation. *)
Theorem getMethodSignature_implies_docs :
  forall (operationName : string) (operation : Operation.t)
         (options : MethodSignatureOptions.t) (signature : string),
    getMethodSignature JSON_stringify ToNumber operationName operation options
    = Ok signature ->
    exists lines, buildOperationDocComments JSON_stringify operation = Ok lines.
Proof.
  intros operationName operation options signature H.
  unfold getMethodSignature in H.
  destruct (signatureParameters JSON_stringify operation options)
    as [parameters|m] eqn:E; simpl in H; [|discriminate H].
  apply reduce_types in E. apply Forall2_resolves in E.
  rewrite buildOperationDocComments_unfold.
  destruct (documentParams_resolving (params := describedParams operation))
    with (comments := descriptionLines operation) as [lines Hlines].
  - apply Forall_forall. intros param Hin.
    unfold describedParams in Hin. apply filter_In in Hin.
    destruct Hin as [Hin _].
    rewrite Forall_forall in E. specialize (E param Hin).
    unfold paramResolves, paramResolvesTo in *.
    exact (getDataType_returns_any_namespace JSON_stringify _ _ None E).
  - rewrite Hlines. simpl. eauto.
Qed.

Lemma concat_app (sep : string) (xs ys : list string) :
  xs <> [] -> ys <> [] ->
  String.concat sep (xs ++ ys)
  = String.concat sep xs +++ sep +++ String.concat sep ys.
Proof.
  intros Hxs Hys. induction xs as [|x xs IH]; [congruence|].
  destruct xs as [|x' xs].
  - destruct ys as [|y ys]; [congruence | reflexivity].
  - change (String.concat sep ((x :: x' :: xs) ++ ys))
      with (x +++ sep +++ String.concat sep ((x' :: xs) ++ ys)).
    rewrite IH by discriminate.
    change (String.concat sep (x :: x' :: xs))
      with (x +++ sep +++ String.concat sep (x' :: xs)).
    now rewrite !append_assoc.
Qed.

Lemma parameterPairs_app (ns : option string)
      (ps qs : list OperationParameter.t) (tp tq : list string) :
  Forall2 (paramResolvesTo JSON_stringify ns) ps tp ->
  parameterPairs (ps ++ qs) (tp ++ tq)
  = parameterPairs ps tp ++ parameterPairs qs tq.
Proof.
  induction 1 as [|p t ps tp Hhead Htail IH]; [reflexivity|].
  simpl app. rewrite !parameterPairs_cons, IH. reflexivity.
Qed.

Lemma parameterPairs_nonEmpty (ns : option string)
      (ps : list OperationParameter.t) (tp : list string) :
  Forall2 (paramResolvesTo JSON_stringify ns) ps tp ->
  ps <> [] -> parameterPairs ps tp <> [].
Proof.
  intros Hall Hne. inversion Hall; subst; [congruence|].
  rewrite parameterPairs_cons. discriminate.
Qed.

(** X14.  Parameter lists compose: when the parameter segments of two
    non-empty parameter lists are [a] and [b], the segment of the two
    lists one after the other is [a], a comma and a space, then [b]; the
    order of the parameters is kept and each type is resolved as before. *)
Theorem signatureParameters_append :
  forall (operation : Operation.t) (options : MethodSignatureOptions.t)
         (ps qs : list OperationParameter.t) (a b : string),
    ps <> [] -> qs <> [] ->
    signatureParameters JSON_stringify (withParameters operation ps) options = Ok a ->
    signatureParameters JSON_stringify (withParameters operation qs) options = Ok b ->
    signatureParameters JSON_stringify (withParameters operation (ps ++ qs)) options
    = Ok (a +++ ", " +++ b).
Proof.
  intros operation options ps qs a b Hps Hqs Ha Hb.
  destruct (reduce_types _ _ _ Ha) as [tp Htp].
  destruct (reduce_types _ _ _ Hb) as [tq Htq].
  simpl in Htp, Htq.
  rewrite (signatureParameters_join JSON_stringify (withParameters operation ps)
             options Htp) in Ha.
  rewrite (signatureParameters_join JSON_stringify (withParameters operation qs)
             options Htq) in Hb.
  inversion Ha. inversion Hb. simpl.
  assert (Hall : Forall2 (paramResolvesTo JSON_stringify
                            (ReturnTypeOptions.modelsNs options))
                         (ps ++ qs) (tp ++ tq))
    by (apply Forall2_app; assumption).
  rewrite (signatureParameters_join JSON_stringify
             (withParameters operation (ps ++ qs)) options Hall).
  simpl. rewrite (parameterPairs_app qs tq Htp).
  rewrite concat_app;
    [reflexivity
    | exact (parameterPairs_nonEmpty Htp Hps)
    | exact (parameterPairs_nonEmpty Htq Hqs)].
Qed.

End SignaturesMore.

Lemma getDataType_namespace_independence_witness :
  getDataType SampleHost.stringify
              (Property.mk (Some "boolean") None (Some "Flag") None true)
              (Some "Models")
  = getDataType SampleHost.stringify
                (Property.mk (Some "boolean") None (Some "Flag") None true) None.
Proof.
  apply (proj2 (proj2 (getDataType_namespace_independence SampleHost.stringify
                         (Property.mk (Some "boolean") None (Some "Flag") None true)
                         (Some "Models") None))).
  reflexivity.
Defined.


Lemma getDataType_nonEmpty_witness :
  getDataType SampleHost.stringify
              (Property.mk None None None (Some "Colour") false) None
  = Ok "Colour"
  /\ nonEmpty "Colour" = true.
Proof.
  split; [reflexivity|].
  apply (getDataType_nonEmpty SampleHost.stringify
           (Property.mk None None None (Some "Colour") false) None).
  reflexivity.
Defined.

Lemma getDataType_primitive_range_witness :
  getDataType SampleHost.stringify
              (Property.mk (Some "string") (Some "email") None None true)
              (Some "Models")
  = Ok "string[]".
Proof.
  apply (proj2 (getDataType_primitive_range SampleHost.stringify
                  (Property.mk (Some "string") (Some "email") None None true)
                  (Some "Models")));
    [reflexivity | discriminate | discriminate].
Defined.

Lemma getDataType_named_injective_witness :
  namedType (Property.mk None None (Some "Pet") None true)
  = namedType (Property.mk None None None (Some "Pet") true).
Proof.
  apply (getDataType_named_injective SampleHost.stringify
           (Property.mk None None (Some "Pet") None true)
           (Property.mk None None None (Some "Pet") true)
           (Some "Models") (typeName := "Models.Pet[]"));
    reflexivity.
Defined.

Lemma buildOperationDocComments_lines_witness :
  buildOperationDocComments SampleHost.stringify
    (Operation.mk (Some "Finds pets") None
       (Some [OperationParameter.mk "tags" (Some "Labels")
                (Property.mk None None (Some "Tag") None true);
              OperationParameter.mk "raw" None
                (Property.mk None None None None false);
              OperationParameter.mk "limit" (Some "Page size")
                (Property.mk (Some "integer") None None None false)])
       None)
  = Ok [ "/**";
         " * Finds pets";
         " * @param {Tag[]} tags - Labels";
         " * @param {number} limit - Page size";
         " */" ].
Proof.
  apply (proj1 (buildOperationDocComments_lines SampleHost.stringify
                  (Operation.mk (Some "Finds pets") None
                     (Some [OperationParameter.mk "tags" (Some "Labels")
                              (Property.mk None None (Some "Tag") None true);
                            OperationParameter.mk "raw" None
                              (Property.mk None None None None false);
                            OperationParameter.mk "limit" (Some "Page size")
                              (Property.mk (Some "integer") None None None false)])
                     None))
           ["Tag[]"; "number"]).
  constructor; [reflexivity|]. constructor; [reflexivity|]. constructor.
Defined.

Lemma buildOperationDocComments_first_error_witness :
  buildOperationDocComments SampleHost.stringify
    (Operation.mk (Some "Finds pets") None
       (Some [OperationParameter.mk "limit" (Some "Page size")
                (Property.mk (Some "integer") None None None false);
              OperationParameter.mk "raw" (Some "Payload")
                (Property.mk None None None None false);
              OperationParameter.mk "kind" (Some "Kind")
                (Property.mk (Some "float") None None None false)])
       None)
  = Throw ("Cannot understand type of property in definition: "
           +++ SampleHost.stringify (Property.mk None None None None false)).
Proof.
  apply (proj2 (buildOperationDocComments_first_error SampleHost.stringify
                  (Operation.mk (Some "Finds pets") None
                     (Some [OperationParameter.mk "limit" (Some "Page size")
                              (Property.mk (Some "integer") None None None false);
                            OperationParameter.mk "raw" (Some "Payload")
                              (Property.mk None None None None false);
                            OperationParameter.mk "kind" (Some "Kind")
                              (Property.mk (Some "float") None None None false)])
                     None)
                  _)).
  exists [OperationParameter.mk "limit" (Some "Page size")
            (Property.mk (Some "integer") None None None false)],
    (OperationParameter.mk "raw" (Some "Payload")
       (Property.mk None None None None false)),
    [OperationParameter.mk "kind" (Some "Kind")
       (Property.mk (Some "float") None None None false)].
  split; [reflexivity|]. split; [|reflexivity].
  constructor; [exists "number"; reflexivity | constructor].
Defined.

Lemma buildOperationDocComments_block_shape_witness :
  buildOperationDocComments SampleHost.stringify
    (Operation.mk None (Some "Details") None None)
  = Ok ["/**"; " * Details"; " */"]
  /\ (["/**"; " * Details"; " */"] = []
      \/ exists body,
          ["/**"; " * Details"; " */"] = "/**" :: body ++ [" */"]
          /\ (3 <= List.length ["/**"; " * Details"; " */"])%nat
          /\ Forall (fun line => String.prefix " * " line = true) body).
Proof.
  split; [reflexivity|].
  apply (buildOperationDocComments_block_shape SampleHost.stringify
           (Operation.mk None (Some "Details") None None)).
  reflexivity.
Defined.

Lemma getReturnType_nonEmpty_witness :
  getReturnType SampleHost.stringify SampleHost.toNumber
    (Operation.mk None None None
       (Some (Responses.literal [("404", Response.mk None)])))
    (ReturnTypeOptions.mk None (Some ""))
  = Ok "void"
  /\ nonEmpty "void" = true.
Proof.
  split; [reflexivity|].
  apply (getReturnType_nonEmpty SampleHost.stringify SampleHost.toNumber
           (Operation.mk None None None
              (Some (Responses.literal [("404", Response.mk None)])))
           (ReturnTypeOptions.mk None (Some ""))).
  reflexivity.
Defined.

Lemma getReturnType_failures_witness :
  exists returnType,
    getReturnType SampleHost.stringify SampleHost.toNumber
      (Operation.mk None None None
         (Some (Responses.literal
                  [("200", Response.mk
                             (Some (Property.mk None None (Some "Pet") None false)));
                   ("400", Response.mk
                             (Some (Property.mk None None None None false)))])))
      (ReturnTypeOptions.mk None None)
    = Ok returnType.
Proof.
  apply (proj2 (getReturnType_failures SampleHost.stringify SampleHost.toNumber
                  (Operation.mk None None None
                     (Some (Responses.literal
                              [("200", Response.mk
                                         (Some (Property.mk None None (Some "Pet")
                                                            None false)));
                               ("400", Response.mk
                                         (Some (Property.mk None None None
                                                            None false)))])))
                  (ReturnTypeOptions.mk None None))).
  intros responses statusKey dataType Hrs Hin (_ & Hstatus & Hdt).
  inversion Hrs; subst responses. simpl in Hin.
  destruct Hin as [<- | [<- | []]].
  - simpl in Hdt. inversion Hdt. reflexivity.
  - exfalso. destruct Hstatus as (q & Hq & _ & Hhigh).
    inversion Hq; subst q. unfold Qlt in Hhigh. simpl in Hhigh. lia.
Defined.

Lemma getMethodSignature_outcome_witness :
  getMethodSignature SampleHost.stringify SampleHost.toNumber "find"
    (Operation.mk None None
       (Some [OperationParameter.mk "id" None
                (Property.mk (Some "integer") None None None false);
              OperationParameter.mk "raw" None
                (Property.mk None None None None false);
              OperationParameter.mk "kind" None
                (Property.mk (Some "float") None None None false)])
       (Some (Responses.literal
                [("200", Response.mk
                           (Some (Property.mk (Some "double") None None None
                                              false)))])))
    getUserOptions
  = Throw ("Cannot understand type of property in definition: "
           +++ SampleHost.stringify (Property.mk None None None None false)).
Proof.
  apply (proj1 (proj2 (getMethodSignature_outcome SampleHost.stringify
                         SampleHost.toNumber "find"
                         (Operation.mk None None
                            (Some [OperationParameter.mk "id" None
                                     (Property.mk (Some "integer") None None None
                                                  false);
                                   OperationParameter.mk "raw" None
                                     (Property.mk None None None None false);
                                   OperationParameter.mk "kind" None
                                     (Property.mk (Some "float") None None None
                                                  false)])
                            (Some (Responses.literal
                                     [("200", Response.mk
                                                (Some (Property.mk (Some "double")
                                                         None None None false)))])))
                         getUserOptions))
           [OperationParameter.mk "id" None
              (Property.mk (Some "integer") None None None false)]
           (OperationParameter.mk "raw" None
              (Property.mk None None None None false))
           [OperationParameter.mk "kind" None
              (Property.mk (Some "float") None None None false)]).
  - reflexivity.
  - constructor; [exists "number"; reflexivity | constructor].
  - reflexivity.
Defined.

Lemma getMethodSignature_implies_docs_witness :
  getMethodSignature SampleHost.stringify SampleHost.toNumber "getUser"
                     getUserOperation getUserOptions
  = Ok "getUser(id: number): Models.User"
  /\ exists lines,
      buildOperationDocComments SampleHost.stringify getUserOperation = Ok lines.
Proof.
  split; [reflexivity|].
  apply (getMethodSignature_implies_docs SampleHost.stringify SampleHost.toNumber
           "getUser" getUserOperation getUserOptions
           (signature := "getUser(id: number): Models.User")).
  reflexivity.
Defined.

Lemma signatureParameters_append_witness :
  signatureParameters SampleHost.stringify
    (withParameters getUserOperation
       ([OperationParameter.mk "id" None
           (Property.mk (Some "integer") None None None false)]
        ++ [OperationParameter.mk "pet" None
              (Property.mk None None (Some "Pet") None false);
            OperationParameter.mk "tags" None
              (Property.mk (Some "string") None None None true)]))
    getUserOptions
  = Ok ("id: number" +++ ", " +++ "pet: Models.Pet, tags: string[]").
Proof.
  apply (signatureParameters_append SampleHost.stringify getUserOperation
           getUserOptions
           (ps := [OperationParameter.mk "id" None
                     (Property.mk (Some "integer") None None None false)])
           (qs := [OperationParameter.mk "pet" None
                     (Property.mk None None (Some "Pet") None false);
                   OperationParameter.mk "tags" None
                     (Property.mk (Some "string") None None None true)]));
    [discriminate | discriminate | reflexivity | reflexivity].
Defined.
